(** * The submission form service (app.py): model and verified properties

    The service is one Flask module: a form handler that validates a
    submission, applies the "reopened" multiplier, appends a row to an Excel
    workbook and uploads the workbook to S3, plus a download endpoint.

    The embedding follows the module top to bottom.  Python values keep their
    shape: [str] is [string] (characters are the code points 0..255), a
    [float] is an IEEE 754 binary64 value ([spec_float] at precision 53), an
    [int] is [Z].  Statements run in a state-and-exception monad over a world
    that holds the file system, the calls made to S3, and the answers of the
    environment (whether a library call raises, what the clock reads). *)

From Stdlib Require Import ZArith Ascii String List Bool Lia DecimalString.
From Stdlib Require Import Floats.SpecFloat.
From stdpp Require Import base option list strings gmap fin_maps.

Import ListNotations.
Local Open Scope string_scope.
Local Open Scope list_scope.

(** ** Python built-ins on [str] *)

Module Py.

Definition ord (c : ascii) : N := N_of_ascii c.

(** [str.isspace] on one character (code points below 256). *)
Definition isspace (c : ascii) : bool :=
  let n := ord c in
  ((9 <=? n) && (n <=? 13) || (28 <=? n) && (n <=? 32)
   || (n =? 133) || (n =? 160))%N.

(** [str.isdigit] on one character: the ASCII digits and the superscripts
    two, three and one. *)
Definition isdigit (c : ascii) : bool :=
  let n := ord c in
  ((48 <=? n) && (n <=? 57) || (n =? 178) || (n =? 179) || (n =? 185))%N.

(** [bool(s)]: a string is truthy when it is not empty. *)
Definition truthy (s : string) : bool :=
  match s with EmptyString => false | String _ _ => true end.

(** [a or b] on strings. *)
Definition or_else (a : option string) (b : string) : string :=
  match a with
  | Some s => if truthy s then s else b
  | None => b
  end.

Fixpoint lstrip_by (p : ascii -> bool) (s : string) : string :=
  match s with
  | EmptyString => EmptyString
  | String c s' => if p c then lstrip_by p s' else s
  end.

Fixpoint rstrip_by (p : ascii -> bool) (s : string) : string :=
  match s with
  | EmptyString => EmptyString
  | String c s' =>
      let r := rstrip_by p s' in
      if p c && negb (truthy r) then EmptyString else String c r
  end.

(** [s.strip()]: leading and trailing whitespace removed. *)
Definition strip (s : string) : string := rstrip_by isspace (lstrip_by isspace s).

(** [c in s] for a one-character [c]. *)
Fixpoint contains (c : ascii) (s : string) : bool :=
  match s with
  | EmptyString => false
  | String d s' => Ascii.eqb c d || contains c s'
  end.

(** [''.join(ch for ch in s if p(ch))] *)
Fixpoint filter_chars (p : ascii -> bool) (s : string) : string :=
  match s with
  | EmptyString => EmptyString
  | String c s' => if p c then String c (filter_chars p s') else filter_chars p s'
  end.

(** [s.split(sep)] for a one-character separator: never the empty list. *)
Fixpoint split (sep : ascii) (s : string) : list string :=
  match s with
  | EmptyString => [EmptyString]
  | String c s' =>
      if Ascii.eqb c sep then EmptyString :: split sep s'
      else match split sep s' with
           | h :: t => String c h :: t
           | [] => [String c EmptyString]
           end
  end.

(** [l[-1]] on a list of strings that is not empty. *)
Definition last_item (l : list string) : string := List.last l EmptyString.

(** *** [os.path] (posixpath) *)

(** [p[:p.rfind('/') + 1]] *)
Fixpoint upto_last_slash (p : string) : string :=
  match p with
  | EmptyString => EmptyString
  | String c p' =>
      let h := upto_last_slash p' in
      if truthy h then String c h
      else if Ascii.eqb c "/" then "/" else EmptyString
  end.

Fixpoint all_slashes (s : string) : bool :=
  match s with
  | EmptyString => true
  | String c s' => Ascii.eqb c "/" && all_slashes s'
  end.

(** [os.path.dirname] *)
Definition dirname (p : string) : string :=
  let head := upto_last_slash p in
  if truthy head && negb (all_slashes head) then rstrip_by (Ascii.eqb "/") head else head.

(** [os.path.basename] *)
Definition basename (p : string) : string := last_item (split "/" p).

Definition startswith_slash (s : string) : bool :=
  match s with String c _ => Ascii.eqb c "/" | EmptyString => false end.

Fixpoint endswith_slash (s : string) : bool :=
  match s with
  | EmptyString => false
  | String c EmptyString => Ascii.eqb c "/"
  | String _ s' => endswith_slash s'
  end.

(** [os.path.join(a, b)] *)
Definition path_join (a b : string) : string :=
  if startswith_slash b then b
  else if negb (truthy a) || endswith_slash a then a ++ b
  else a ++ "/" ++ b.

(** *** Numbers *)

Definition prec : Z := 53.
Definition emax : Z := 1024.

(** [float(n)] for an [int]: the nearest double, ties to even;
    [None] is [OverflowError] ("int too large to convert to float"). *)
Definition float_of_int (n : Z) : option spec_float :=
  match binary_normalize prec emax n 0 false with
  | S754_infinity _ => None
  | f => Some f
  end.

(** [x * n] for a float [x] and an int [n]. *)
Definition float_mul_int (x : spec_float) (n : Z) : option spec_float :=
  match float_of_int n with
  | Some y => Some (SFmul prec emax x y)
  | None => None
  end.

Definition is_dec (c : ascii) : bool := ((48 <=? ord c) && (ord c <=? 57))%N.

Definition dec_val (c : ascii) : Z := Z.of_N (ord c) - 48.

(** Underscores in a numeric literal are allowed only between two digits;
    they are removed before the number is read. [prev] is the character
    before [s]. *)
Fixpoint drop_underscores (prev : ascii) (s : string) : option string :=
  match s with
  | EmptyString => if Ascii.eqb prev "_" then None else Some EmptyString
  | String c s' =>
      if Ascii.eqb c "_" then
        if is_dec prev then drop_underscores c s' else None
      else if Ascii.eqb prev "_" && negb (is_dec c) then None
      else option_map (String c) (drop_underscores c s')
  end.

(** The longest prefix of decimal digits: its value, its length, the rest. *)
Fixpoint read_digits (acc : Z) (n : nat) (s : string) : Z * nat * string :=
  match s with
  | String c s' =>
      if is_dec c then read_digits (10 * acc + dec_val c) (S n) s' else (acc, n, s)
  | EmptyString => (acc, n, s)
  end.

Definition read_sign (s : string) : bool * string :=
  match s with
  | String "-" s' => (true, s')
  | String "+" s' => (false, s')
  | _ => (false, s)
  end.

Definition lower (c : ascii) : ascii :=
  let n := ord c in
  if ((65 <=? n) && (n <=? 90))%N then ascii_of_N (n + 32) else c.

Fixpoint lower_str (s : string) : string :=
  match s with
  | EmptyString => EmptyString
  | String c s' => String (lower c) (lower_str s')
  end.

(** The double nearest to [m * 10^e], ties to even, for [m > 0]. *)
Definition round_decimal (sign : bool) (m : positive) (e : Z) : spec_float :=
  if (0 <=? e)%Z then binary_round prec emax sign (m * Z.to_pos (10 ^ e))%positive 0
  else
    let '(q, e', l) := SFdiv_core_binary prec emax (Zpos m) 0 (10 ^ (- e)) 0 in
    binary_round_aux prec emax sign q e' l.

(** A decimal literal: digits, an optional point and fraction (one digit at
    least in all), an optional exponent. The whole string must be used. *)
Definition read_decimal (sign : bool) (s : string) : option spec_float :=
  let '(ip, ni, s1) := read_digits 0 0 s in
  let '(m, nf, s2) :=
    match s1 with
    | String "." s1' => read_digits ip 0 s1'
    | _ => (ip, 0%nat, s1)
    end in
  if (ni + nf =? 0)%nat then None
  else
    let '(ex, s3) :=
      match s2 with
      | String c s2' =>
          if Ascii.eqb (lower c) "e" then
            let '(es, s2'') := read_sign s2' in
            let '(ev, ne, s3) := read_digits 0 0 s2'' in
            if (ne =? 0)%nat then (0%Z, s2)
            else ((if es then - ev else ev)%Z, s3)
          else (0%Z, s2)
      | EmptyString => (0%Z, s2)
      end in
    if truthy s3 then None
    else Some match m with
              | Zpos p => round_decimal sign p (ex - Z.of_nat nf)
              | _ => S754_zero sign
              end.

(** [inf], [infinity] and [nan], in any letter case. *)
Definition read_inf_nan (sign : bool) (s : string) : option spec_float :=
  let l := lower_str s in
  if String.eqb l "inf" || String.eqb l "infinity" then Some (S754_infinity sign)
  else if String.eqb l "nan" then Some S754_nan
  else None.

(** The whitespace [float] itself skips around a literal: the C [isspace]
    characters, and the two whitespace code points above 127. *)
Definition float_space (c : ascii) : bool :=
  let n := ord c in
  ((9 <=? n) && (n <=? 13) || (n =? 32) || (n =? 133) || (n =? 160))%N.

(** [float(s)] for a string; [None] is [ValueError]. *)
Definition float_of_str (s : string) : option spec_float :=
  match drop_underscores "000" (rstrip_by float_space (lstrip_by float_space s)) with
  | None => None
  | Some t =>
      let '(sign, u) := read_sign t in
      match read_decimal sign u with
      | Some f => Some f
      | None => read_inf_nan sign u
      end
  end.

End Py.

(** ** Values that cross the boundary of the module *)

(** What [jsonify] serialises. *)
#[warnings="-register-all"]
Inductive json :=
  | JNull
  | JBool (b : bool)
  | JInt (n : Z)
  | JFloat (x : spec_float)
  | JStr (s : string)
  | JObj (members : list (string * json)).

(** [jsonify] with keyword arguments: an object with those members. *)
Definition jsonify (kwargs : list (string * json)) : json := JObj kwargs.

(** [obj[key]], the first member of that name. *)
Fixpoint member (key : string) (kv : list (string * json)) : option json :=
  match kv with
  | [] => None
  | (k, v) :: kv' => if String.eqb k key then Some v else member key kv'
  end.

Definition jget (key : string) (j : json) : option json :=
  match j with JObj kv => member key kv | _ => None end.

(** A cell of the sheet holds the Python value handed to [ws.append]. *)
Inductive cell :=
  | CStr (s : string)
  | CFloat (x : spec_float).

Definition sheet := list (list cell).

(** A regular file is a workbook with one sheet, or bytes that
    [load_workbook] cannot read. *)
Inductive content :=
  | Workbook (rows : sheet)
  | Bytes (raw : string).

Inductive node :=
  | Dir
  | File (c : content).

Inductive body :=
  | Json (j : json)
  | Attachment (download_name : string) (c : content).

(** A Flask response: the body and the status code. *)
Definition response : Type := body * nat.

(** ** Exceptions and the world *)

(** The classes the module tells apart: its [except] clauses name
    [BotoCoreError] and [ClientError]; every other [Exception] is
    [OtherError]. *)
Inductive exn_class := BotoCoreError | ClientError | OtherError.

(** An exception with [str(e)] and the text [traceback.format_exc()]
    gives while it is handled. *)
Record exn := Exn { cls : exn_class; message : string; trace : string }.

(** How one call into a library ends: it returns; it raises; or, for a
    write, it raises after leaving [junk] in the file. *)
Inductive outcome :=
  | Returns
  | Raises (e : exn)
  | RaisesTorn (e : exn) (junk : string).

Record datetime := DateTime
  { year : nat; month : nat; day : nat; hour : nat; minute : nat; second : nat }.

Inductive s3_call :=
  | Client (region : option string)
  | UploadFile (local_path bucket key : string).

(** The world: the file system by path, the calls made to boto3 so far, and
    what the environment will answer: [io] is consumed by the library calls
    that can raise, one answer per call, [clock] by [datetime.utcnow()].
    An exhausted [io] means the call returns. *)
Record world := World
  { fs : gmap string node;
    s3_calls : list s3_call;
    io : list outcome;
    clock : list datetime }.

Definition set_fs (f : gmap string node) (w : world) : world :=
  World f (s3_calls w) (io w) (clock w).

Inductive result (A : Type) :=
  | Ok (a : A)
  | Exc (e : exn).
Arguments Ok {A} a.
Arguments Exc {A} e.

(** A statement: it runs in a world and returns a value or raises. *)
Definition M (A : Type) : Type := world -> result A * world.

Definition ret {A} (a : A) : M A := fun w => (Ok a, w).

Definition raise {A} (e : exn) : M A := fun w => (Exc e, w).

Definition bind {A B} (c : M A) (k : A -> M B) : M B :=
  fun w => match c w with
           | (Ok a, w') => k a w'
           | (Exc e, w') => (Exc e, w')
           end.

(** [try: c  except <classes> as e: h e]; an exception that [catches]
    rejects goes on to the caller. *)
Definition try_except {A} (catches : exn -> bool) (c : M A) (h : exn -> M A) : M A :=
  fun w => match c w with
           | (Ok a, w') => (Ok a, w')
           | (Exc e, w') => if catches e then h e w' else (Exc e, w')
           end.

(** [except Exception] *)
Definition any_exception (e : exn) : bool := true.

(** [except (BotoCoreError, ClientError)] *)
Definition boto_errors (e : exn) : bool :=
  match cls e with
  | BotoCoreError | ClientError => true
  | OtherError => false
  end.

Declare Scope py_scope.
Delimit Scope py_scope with py.
Notation "x <- c ;; k" := (bind c (fun x => k))
  (at level 100, c at next level, right associativity) : py_scope.
Notation "c ;; k" := (bind c (fun _ => k))
  (at level 100, right associativity) : py_scope.
Local Open Scope py_scope.

(** *** The library calls *)

(** The text of a traceback for an exception the interpreter raises itself
    (the frames are elided). *)
Definition raised (class_name msg : string) : exn :=
  Exn OtherError msg ("Traceback (most recent call last): " ++ class_name ++ ": " ++ msg).

Definition next_outcome : M outcome :=
  fun w => match io w with
           | [] => (Ok Returns, w)
           | o :: rest => (Ok o, World (fs w) (s3_calls w) rest (clock w))
           end.

(** A call that touches nothing in the model and may raise. *)
Definition fallible : M unit :=
  o <- next_outcome;;
  match o with
  | Returns => ret tt
  | Raises e | RaisesTorn e _ => raise e
  end.

(** [os.path.exists(p)] *)
Definition path_exists (p : string) : M bool :=
  fun w => (Ok (match fs w !! p with Some _ => true | None => false end), w).

(** [d], its parent, its grandparent, ... up to the root. *)
Fixpoint lineage (fuel : nat) (d : string) : list string :=
  match fuel with
  | O => []
  | S k =>
      if Py.truthy d then
        d :: (if String.eqb (Py.dirname d) d then [] else lineage k (Py.dirname d))
      else []
  end.

Definition mkdir_if_missing (d : string) (f : gmap string node) : gmap string node :=
  match f !! d with
  | Some _ => f
  | None => <[d := Dir]> f
  end.

(** [os.mkdir(name)] as [os.makedirs(exist_ok=True)] calls it: a directory
    that is already there is accepted. *)
Definition mkdir (name : string) : M unit :=
  fallible;;
  fun w => (Ok tt, set_fs (mkdir_if_missing name (fs w)) w).

(** The recursion of [os.makedirs]: [names] is a directory, its parent, its
    grandparent, ....  When the parent is missing it is made first, by the
    same steps; then comes the [mkdir] of the directory itself.  Every
    [mkdir] can raise, and the directories made before it stay. *)
Fixpoint makedirs_along (names : list string) : M unit :=
  match names with
  | [] => ret tt
  | name :: above =>
      (match above with
       | [] => ret tt
       | head :: _ =>
           e <- path_exists head;;
           if negb e then makedirs_along above else ret tt
       end);;
      mkdir name
  end.

(** [os.makedirs(d, exist_ok=True)]: [d] and the missing directories above
    it are created, from the top down and one at a time, so that a call
    that raises can leave some of them behind. *)
Definition makedirs (d : string) : M unit :=
  makedirs_along (lineage (S (String.length d)) d).

(** [ws.append(row)] on the sheet of an open workbook. *)
Definition ws_append (ws : sheet) (row : list cell) : M sheet :=
  fallible;;
  ret (ws ++ [row]).

(** [wb.save(p)] *)
Definition wb_save (wb : sheet) (p : string) : M unit :=
  o <- next_outcome;;
  match o with
  | Returns => fun w => (Ok tt, set_fs (<[p := File (Workbook wb)]> (fs w)) w)
  | Raises e => raise e
  | RaisesTorn e junk => fun w => (Exc e, set_fs (<[p := File (Bytes junk)]> (fs w)) w)
  end.

(** [load_workbook(p)] *)
Definition load_workbook (p : string) : M sheet :=
  fallible;;
  fun w => match fs w !! p with
           | Some (File (Workbook rows)) => (Ok rows, w)
           | Some (File (Bytes _)) => (Exc (raised "BadZipFile" "File is not a zip file"), w)
           | Some Dir => (Exc (raised "IsADirectoryError" p), w)
           | None => (Exc (raised "FileNotFoundError" p), w)
           end.

(** [datetime.utcnow()] *)
Definition utcnow : M datetime :=
  fun w => match clock w with
           | [] => (Ok (DateTime 1970 1 1 0 0 0), w)
           | t :: rest => (Ok t, World (fs w) (s3_calls w) (io w) rest)
           end.

Definition dec (n : nat) : string := NilEmpty.string_of_uint (Nat.to_uint n).

Definition pad2 (n : nat) : string := if (n <? 10)%nat then "0" ++ dec n else dec n.

Definition pad4 (n : nat) : string :=
  if (n <? 10)%nat then "000" ++ dec n
  else if (n <? 100)%nat then "00" ++ dec n
  else if (n <? 1000)%nat then "0" ++ dec n
  else dec n.

(** [t.strftime('%Y-%m-%d %H:%M:%S')] *)
Definition strftime_row (t : datetime) : string :=
  pad4 (year t) ++ "-" ++ pad2 (month t) ++ "-" ++ pad2 (day t) ++ " "
  ++ pad2 (hour t) ++ ":" ++ pad2 (minute t) ++ ":" ++ pad2 (second t).

(** [t.strftime("%Y%m%dT%H%M%SZ")] *)
Definition strftime_key (t : datetime) : string :=
  pad4 (year t) ++ pad2 (month t) ++ pad2 (day t) ++ "T"
  ++ pad2 (hour t) ++ pad2 (minute t) ++ pad2 (second t) ++ "Z".

Definition record_call (c : s3_call) : M unit :=
  fun w => (Ok tt, World (fs w) (s3_calls w ++ [c]) (io w) (clock w)).

(** [boto3.client('s3', **session_kwargs)] *)
Definition boto3_client (region : option string) : M unit :=
  record_call (Client region);; fallible.

(** [s3.upload_file(local_path, bucket, key)] *)
Definition upload_file (local_path bucket key : string) : M unit :=
  record_call (UploadFile local_path bucket key);; fallible.

(** [send_from_directory(directory, name, as_attachment=True)]: the file is
    sent when it is a regular file, otherwise [NotFound] is raised. *)
Definition send_from_directory (directory name : string) : M response :=
  fallible;;
  fun w => match fs w !! Py.path_join directory name with
           | Some (File c) => (Ok (Attachment name c, 200%nat), w)
           | _ => (Exc (raised "NotFound" "404 Not Found"), w)
           end.

(** ** The module *)

(** The module-level configuration, read from the environment at import:
    [cwd] is [os.getcwd()]. *)
Record config := Config
  { EXCEL_FILE : string;
    cwd : string;
    MULTIPLIER : Z;
    S3_BUCKET : option string;
    AWS_REGION : option string }.

(** The configuration when no variable is set, in directory [d]. *)
Definition default_config (d : string) : config :=
  Config "submissions.xlsx" d 100 None None.

(** [request.form]: the pairs of the body in order; [get] takes the first. *)
Definition form := list (string * string).

Fixpoint form_get (f : form) (key : string) : option string :=
  match f with
  | [] => None
  | (k, v) :: f' => if String.eqb k key then Some v else form_get f' key
  end.

(** The local variables [submit] reads from the form. *)
Record fields := Fields
  { name : string; phone : string; email : string; zipcode : string;
    bank : string; amount_raw : string; reopened : string }.

Definition headers : list cell :=
  [CStr "TimestampUTC"; CStr "Name"; CStr "Phone"; CStr "Email";
   CStr "Zipcode"; CStr "Bank"; CStr "AmountSent"; CStr "ReopenedFlag"].

(** [bool(x)] for an optional string such as [S3_BUCKET]. *)
Definition configured (x : option string) : bool :=
  match x with Some s => Py.truthy s | None => false end.

Definition opt_json (x : option string) : json :=
  match x with Some s => JStr s | None => JNull end.

Section App.

Variable cfg : config.

Definition EXCEL_PATH : string := Py.path_join (cwd cfg) (EXCEL_FILE cfg).

Definition ensure_dir_for_file (path : string) : M unit :=
  let d := Py.dirname path in
  if Py.truthy d then
    e <- path_exists d;;
    if negb e then makedirs d else ret tt
  else ret tt.

(** Create the Excel file and headers if missing. *)
Definition ensure_excel : M (bool * option string) :=
  try_except any_exception
    (ensure_dir_for_file EXCEL_PATH;;
     e <- path_exists EXCEL_PATH;;
     (if negb e then
        ws <- ws_append [] headers;;
        wb_save ws EXCEL_PATH
      else ret tt);;
     ret (true, None))
    (fun e => ret (false, Some (trace e))).

(** Append a row and save the workbook. Returns (ok, error_trace). *)
Definition append_row_and_save (row : list cell) : M (bool * option string) :=
  try_except any_exception
    (ensure_dir_for_file EXCEL_PATH;;
     e <- path_exists EXCEL_PATH;;
     let append :=
       ws <- load_workbook EXCEL_PATH;;
       ws' <- ws_append ws row;;
       wb_save ws' EXCEL_PATH;;
       ret (true, None) in
     if negb e then
       r <- ensure_excel;;
       let '(ok, err) := r in
       if negb ok then ret (false, err) else append
     else append)
    (fun e => ret (false, Some (trace e))).

Definition upload_to_s3 (local_path : string) (bucket : option string)
    (key : option string) : M json :=
  if negb (configured bucket) then
    ret (JObj [("ok", JBool false); ("error", JStr "No S3_BUCKET configured")])
  else
    key <- match key with
           | Some k => ret k
           | None =>
               now <- utcnow;;
               ret ("submissions/" ++ strftime_key now ++ "_" ++ Py.basename local_path)%string
           end;;
    try_except boto_errors
      (boto3_client (if configured (AWS_REGION cfg) then AWS_REGION cfg else None);;
       upload_file local_path (default "" bucket) key;;
       ret (JObj [("ok", JBool true); ("key", JStr key); ("bucket", opt_json bucket)]))
      (fun e => ret (JObj [("ok", JBool false); ("error", JStr (message e));
                           ("trace", JStr (trace e))])).

(** Admin endpoint for quick health check (no secrets). *)
Definition status : M response :=
  file_exists <- path_exists EXCEL_PATH;;
  ret (Json (jsonify [("ok", JBool true);
                      ("excel_path", JStr EXCEL_PATH);
                      ("file_exists", JBool file_exists);
                      ("MULTIPLIER", JInt (MULTIPLIER cfg));
                      ("S3_BUCKET_configured", JBool (configured (S3_BUCKET cfg)))]),
       200%nat).

(** Lines 95 to 101 of [submit]: every field is read with a default and
    stripped. *)
Definition read_form (f : form) : fields :=
  {| name := Py.strip (Py.or_else (form_get f "name") "");
     phone := Py.strip (Py.or_else (form_get f "phone") "");
     email := Py.strip (Py.or_else (form_get f "email") "");
     zipcode := Py.strip (Py.or_else (form_get f "zipcode") "");
     bank := Py.strip (Py.or_else (form_get f "bank") "");
     amount_raw := Py.strip (Py.or_else (form_get f "amount") "");
     reopened := Py.strip (Py.or_else (form_get f "reopened") "0") |}.

Definition bad_request (error : string) : response :=
  (Json (jsonify [("success", JBool false); ("error", JStr error)]), 400%nat).

(** Lines 103 to 118 of [submit], the block headed "Basic validation": an
    early return is [inl], falling through with [raw_amount] is [inr]. *)
Definition basic_validation (f : fields) : response + spec_float :=
  if negb (Py.truthy (name f)) || (String.length (name f) <? 2)%nat then
    inl (bad_request "Name too short")
  else if negb (Py.truthy (phone f))
          || (String.length (Py.filter_chars Py.isdigit (phone f)) <? 6)%nat then
    inl (bad_request "Phone looks invalid")
  else if negb (Py.truthy (email f)) || negb (Py.contains "@" (email f))
          || negb (Py.contains "." (Py.last_item (Py.split "@" (email f)))) then
    inl (bad_request "Email looks invalid")
  else if negb (Py.truthy (zipcode f)) || (String.length (zipcode f) <? 3)%nat then
    inl (bad_request "Zipcode looks invalid")
  else if negb (Py.truthy (bank f)) || (String.length (bank f) <? 2)%nat then
    inl (bad_request "Bank name required")
  else
    match Py.float_of_str (amount_raw f) with
    | None => inl (bad_request "Amount is invalid")
    | Some raw_amount => inr raw_amount
    end.

(** Lines 120 to 126 of [submit]: apply multiplication server-side when
    reopened == '1'. The result is [(amount_sent, multiplied_flag)]. *)
Definition amount_rule (reopened : string) (raw_amount : spec_float) : M (spec_float * bool) :=
  if String.eqb reopened "1" then
    match Py.float_mul_int raw_amount (MULTIPLIER cfg) with
    | Some amount_sent => ret (amount_sent, true)
    | None => raise (raised "OverflowError" "int too large to convert to float")
    end
  else ret (raw_amount, false).

(** Line 130 of [submit]: the row handed to [append_row_and_save]. *)
Definition submission_row (timestamp : string) (f : fields) (amount_sent : spec_float)
    : list cell :=
  [CStr timestamp; CStr (name f); CStr (phone f); CStr (email f);
   CStr (zipcode f); CStr (bank f); CFloat amount_sent; CStr (reopened f)].

Definition skipped_upload : json :=
  JObj [("ok", JBool false); ("error", JStr "S3_BUCKET not configured; skipping upload")].

Definition save_failed (err : option string) : response :=
  (Json (jsonify [("success", JBool false);
                  ("error", JStr "Failed to save Excel");
                  ("save_trace", opt_json err);
                  ("file_path", JStr EXCEL_PATH)]), 500%nat).

Definition success (f : fields) (amount_sent : spec_float) (multiplied_flag file_exists : bool)
    (s3_result : json) : response :=
  (Json (jsonify [("success", JBool true);
                  ("amount_sent", JFloat amount_sent);
                  ("reopened_received", JStr (reopened f));
                  ("multiplied", JBool multiplied_flag);
                  ("file_exists", JBool file_exists);
                  ("file_path", JStr EXCEL_PATH);
                  ("s3_upload", s3_result)]), 200%nat).

Definition server_error (exc : exn) : response :=
  (Json (jsonify [("success", JBool false);
                  ("error", JStr (message exc));
                  ("trace", JStr (trace exc))]), 500%nat).

Definition submit (request_form : form) : M response :=
  try_except any_exception
    (let f := read_form request_form in
     match basic_validation f with
     | inl early => ret early
     | inr raw_amount =>
         am <- amount_rule (reopened f) raw_amount;;
         let '(amount_sent, multiplied_flag) := am in
         now <- utcnow;;
         let timestamp := strftime_row now in
         let row := submission_row timestamp f amount_sent in
         r <- append_row_and_save row;;
         let '(ok, err) := r in
         file_exists <- path_exists EXCEL_PATH;;
         s3_result <- (if ok && configured (S3_BUCKET cfg) then
                         upload_to_s3 EXCEL_PATH (S3_BUCKET cfg) None
                       else if negb (configured (S3_BUCKET cfg)) then ret skipped_upload
                       else ret JNull);;
         if negb ok then
           (* Could not save file *)
           ret (save_failed err)
         else
           (* Return informative JSON so frontend can display exact stored amount *)
           ret (success f amount_sent multiplied_flag file_exists s3_result)
     end)
    (fun exc => ret (server_error exc)).

(** Allow manual download of the current submissions.xlsx file. *)
Definition download_excel : M response :=
  try_except any_exception
    (let path := Py.path_join (cwd cfg) "submissions.xlsx" in
     e <- path_exists path;;
     if negb e then
       ret (Json (jsonify [("error", JStr "File not found. Submit once to create it.")]),
            404%nat)
     else send_from_directory (cwd cfg) "submissions.xlsx")
    (fun e => ret (Json (jsonify [("error", JStr (message e))]), 500%nat)).

End App.

(** ** Notions used in the statements *)

(** [wp c w Q]: running [c] in [w] ends in a result and a world that
    satisfy [Q]. Statements are total, so this is a plain projection. *)
Definition wp {A} (c : M A) (w : world) (Q : result A -> world -> Prop) : Prop :=
  Q (fst (c w)) (snd (c w)).

(** The world with another file system and other pending answers. *)
Definition world_with (f : gmap string node) (answers : list outcome) (w : world) : world :=
  World f (s3_calls w) answers (clock w).

Arguments world_with _ _ _ /.

(** A file system that differs from [f] by new directories only. *)
Definition dirs_added (f f' : gmap string node) : Prop :=
  forall p, f' !! p = f !! p \/ (f !! p = None /\ f' !! p = Some Dir).

Section Notions.

Variable cfg : config.

(** The parent directory of [path] exists (or [path] has none). *)
Definition dir_present (path : string) (f : gmap string node) : Prop :=
  Py.truthy (Py.dirname path) = false \/ is_Some (f !! Py.dirname path).

(** Something exists at [EXCEL_PATH], inside an existing directory. *)
Definition store_present (w : world) : Prop :=
  is_Some (fs w !! EXCEL_PATH cfg) /\ dir_present (EXCEL_PATH cfg) (fs w).

(** The rows of the store, when [EXCEL_PATH] is a workbook. *)
Definition store_rows (w : world) : option sheet :=
  match fs w !! EXCEL_PATH cfg with
  | Some (File (Workbook rows)) => Some rows
  | _ => None
  end.

(** What one call of [append_row_and_save] can do: it never raises; when it
    reports success the store is the old sheet (the header row alone when
    there was no store) with [row] appended. *)
Definition appended (row : list cell) (w : world)
    (r : result (bool * option string)) (w' : world) : Prop :=
  exists ok err, r = Ok (ok, err) /\
    s3_calls w' = s3_calls w /\ clock w' = clock w /\
    if ok then
      err = None /\ store_present w' /\
      exists rows, store_rows w' = Some (rows ++ [row]) /\
        (store_rows w = Some rows \/ (fs w !! EXCEL_PATH cfg = None /\ rows = [headers]))
    else exists tr, err = Some tr.

(** [os.path.exists(EXCEL_PATH)] in world [w]. *)
Definition store_exists (w : world) : bool :=
  match fs w !! EXCEL_PATH cfg with Some _ => true | None => false end.

(** What [submit] runs for [s3_result] once the row is saved. *)
Definition sync_step : M json :=
  if configured (S3_BUCKET cfg) then upload_to_s3 cfg (EXCEL_PATH cfg) (S3_BUCKET cfg) None
  else ret skipped_upload.

(** Every run of [submit] takes one of four paths. *)
Inductive submit_path (rf : form) (w : world) : response -> world -> Prop :=
  | path_rejected early :
      basic_validation (read_form rf) = inl early ->
      submit_path rf w early w
  | path_overflow raw_amount e :
      basic_validation (read_form rf) = inr raw_amount ->
      amount_rule cfg (reopened (read_form rf)) raw_amount w = (Exc e, w) ->
      submit_path rf w (server_error e) w
  | path_save_failed raw_amount amount_sent multiplied_flag now w1 tr w2 :
      basic_validation (read_form rf) = inr raw_amount ->
      amount_rule cfg (reopened (read_form rf)) raw_amount w
        = (Ok (amount_sent, multiplied_flag), w) ->
      utcnow w = (Ok now, w1) ->
      append_row_and_save cfg (submission_row (strftime_row now) (read_form rf) amount_sent) w1
        = (Ok (false, Some tr), w2) ->
      submit_path rf w (save_failed cfg (Some tr)) w2
  | path_saved raw_amount amount_sent multiplied_flag now w1 w2 r w3 :
      basic_validation (read_form rf) = inr raw_amount ->
      amount_rule cfg (reopened (read_form rf)) raw_amount w
        = (Ok (amount_sent, multiplied_flag), w) ->
      utcnow w = (Ok now, w1) ->
      append_row_and_save cfg (submission_row (strftime_row now) (read_form rf) amount_sent) w1
        = (Ok (true, None), w2) ->
      sync_step w2 = (r, w3) ->
      submit_path rf w
        match r with
        | Ok s3_result =>
            success cfg (read_form rf) amount_sent multiplied_flag true s3_result
        | Exc e => server_error e
        end w3.

End Notions.

(** ** The validation contract, as the specification words it

    Section 4.4 of the specification lists six rules, applied in order, the
    first failure deciding the answer. [Contract] writes them down from
    those words; [basic_validation] above is the code. *)

Module Contract.

(** "present" *)
Definition present (s : string) : bool := negb (String.eqb s "").

(** "stripped of non-digit characters, resulting digit count" *)
Definition digit_count (s : string) : nat :=
  List.length (List.filter Py.isdigit (list_ascii_of_string s)).

(** "the substring after the last [c]", when [c] occurs at all *)
Fixpoint after_last (c : ascii) (s : string) : option string :=
  match s with
  | EmptyString => None
  | String d s' =>
      match after_last c s' with
      | Some t => Some t
      | None => if Ascii.eqb d c then Some s' else None
      end
  end.

Record rule := Rule { field : string; error : string; holds : fields -> bool }.

Definition rules : list rule :=
  [ Rule "name" "Name too short"
      (fun f => present (name f) && (2 <=? String.length (name f))%nat);
    Rule "phone" "Phone looks invalid"
      (fun f => present (phone f) && (6 <=? digit_count (phone f))%nat);
    Rule "email" "Email looks invalid"
      (fun f => present (email f) &&
                match after_last "@" (email f) with
                | Some domain => Py.contains "." domain
                | None => false
                end);
    Rule "zipcode" "Zipcode looks invalid"
      (fun f => present (zipcode f) && (3 <=? String.length (zipcode f))%nat);
    Rule "bank" "Bank name required"
      (fun f => present (bank f) && (2 <=? String.length (bank f))%nat);
    Rule "amount" "Amount is invalid"
      (fun f => match Py.float_of_str (amount_raw f) with Some _ => true | None => false end) ].

(** The rules in order, stopping at the first that fails. *)
Definition first_failure (f : fields) : option rule :=
  List.find (fun r => negb (holds r f)) rules.

End Contract.

(** *** The sync step *)

Definition raised_by (o : outcome) : option exn :=
  match o with
  | Returns => None
  | Raises e | RaisesTorn e _ => Some e
  end.

(** The exception one upload meets, if any, given the pending answers of
    the environment: [boto3.client] takes the first answer and, when it
    returns, [upload_file] takes the second. *)
Definition s3_raises (answers : list outcome) : option exn :=
  match answers with
  | [] => None
  | o1 :: rest =>
      match raised_by o1 with
      | Some e => Some e
      | None => match rest with
                | [] => None
                | o2 :: _ => raised_by o2
                end
      end
  end.

Definition upload_failed (e : exn) : json :=
  JObj [("ok", JBool false); ("error", JStr (message e)); ("trace", JStr (trace e))].

(** *** What [strip] does *)

Fixpoint all_chars (p : ascii -> bool) (s : string) : bool :=
  match s with
  | EmptyString => true
  | String c s' => p c && all_chars p s'
  end.

Definition first_char (s : string) : option ascii :=
  match s with
  | EmptyString => None
  | String c _ => Some c
  end.

Fixpoint last_char (s : string) : option ascii :=
  match s with
  | EmptyString => None
  | String c EmptyString => Some c
  | String _ s' => last_char s'
  end.

(** [s] neither starts nor ends with a character that satisfies [p]. *)
Definition clean_ends (p : ascii -> bool) (s : string) : Prop :=
  (forall c, first_char s = Some c -> p c = false) /\
  (forall c, last_char s = Some c -> p c = false).

(** [s] is [raw] without its leading and trailing whitespace. *)
Definition stripped_of (raw s : string) : Prop :=
  exists l r, raw = (l ++ s ++ r)%string /\
    all_chars Py.isspace l = true /\ all_chars Py.isspace r = true /\
    clean_ends Py.isspace s.

(** *** Runs of submissions *)

(** A run of requests to [/submit], each with its form and its answer. *)
Inductive submissions (cfg : config) : world -> list (form * response) -> world -> Prop :=
  | submissions_nil w : submissions cfg w [] w
  | submissions_cons w rf resp w1 rest w2 :
      submit cfg rf w = (Ok resp, w1) ->
      submissions cfg w1 rest w2 ->
      submissions cfg w ((rf, resp) :: rest) w2.

(** [row] is a data row for the form [rf]: eight cells in the order of the
    header. *)
Definition row_of (rf : form) (row : list cell) : Prop :=
  exists timestamp amount_sent,
    row = [CStr timestamp; CStr (name (read_form rf)); CStr (phone (read_form rf));
           CStr (email (read_form rf)); CStr (zipcode (read_form rf));
           CStr (bank (read_form rf)); CFloat amount_sent;
           CStr (reopened (read_form rf))].

(** *** What a saved number cell holds *)



(** *** Worked inputs *)

Module Example.

Definition cfg : config := default_config "/app".

(** An empty application directory, an environment in which no call raises. *)
Definition empty_dir : world := World {["/app" := Dir]} [] [] [].

Definition entry (name amount reopened : string) : form :=
  [("name", name); ("phone", "555-12-34"); ("email", "ann@example.org");
   ("zipcode", "1234"); ("bank", "First Bank"); ("amount", amount);
   ("reopened", reopened)].

(** 12.5 and 1250.0 as doubles. *)
Definition twelve_and_half : spec_float := S754_finite false 7036874417766400 (-49).
Definition twelve_fifty : spec_float := S754_finite false 5497558138880000 (-42).

End Example.

Module Failing.

(** The first library call of the request raises. *)
Definition disk_error : exn :=
  Exn OtherError "[Errno 28] No space left on device"
      "Traceback (most recent call last): OSError: [Errno 28] No space left on device".

Definition full_disk : world := World {["/app" := Dir]} [] [Raises disk_error] [].

(** A bucket is configured, the row is saved, then [upload_file] raises. *)
Definition with_bucket : config := Config "submissions.xlsx" "/app" 100 (Some "bucket") None.

Definition access_denied : exn :=
  Exn ClientError "An error occurred (AccessDenied) when calling the PutObject operation"
      "Traceback (most recent call last): ClientError: An error occurred (AccessDenied)".

Definition upload_failure : exn :=
  Exn OtherError "Failed to upload /app/submissions.xlsx to bucket"
      "Traceback (most recent call last): S3UploadFailedError: Failed to upload".

(** Five calls save the row (header append, save, load, append, save), the
    sixth creates the client, the seventh is [upload_file]. *)
Definition upload_raises (e : exn) : world :=
  World {["/app" := Dir]} []
        [Returns; Returns; Returns; Returns; Returns; Returns; Raises e] [].

End Failing.

Module Renamed.

(** [EXCEL_FILE=data.xlsx] in the environment. *)
Definition cfg : config := Config "data.xlsx" "/app" 100 None None.

Definition after_one_submission : world :=
  snd (submit cfg (Example.entry "Ann" "12.5" "0") Example.empty_dir).

End Renamed.


(** *** Environments in which nothing fails *)

(** No pending answer of the environment raises. *)
Definition calm (w : world) : Prop := Forall (fun o => o = Returns) (io w).

(** The node at [EXCEL_PATH]. *)
Definition store_node (cfg : config) (w : world) : option node :=
  fs w !! EXCEL_PATH cfg.

(** What a call of [append_row_and_save] that reported [ok] can have left
    at [EXCEL_PATH], by what was there before. *)
Definition append_leaves (cfg : config) (row : list cell) (w : world) (ok : bool)
    (w' : world) : Prop :=
  match store_node cfg w with
  | Some (File (Workbook rows)) =>
      (ok = true /\ store_node cfg w' = Some (File (Workbook (rows ++ [row]))))
      \/ (ok = false /\ store_node cfg w' = Some (File (Workbook rows)))
      \/ (ok = false /\ exists junk, store_node cfg w' = Some (File (Bytes junk)))
  | Some n => ok = false /\ store_node cfg w' = Some n
  | None =>
      (ok = true /\ store_node cfg w' = Some (File (Workbook [headers; row])))
      \/ (ok = false /\
          (store_node cfg w' = None \/ store_node cfg w' = Some Dir
           \/ store_node cfg w' = Some (File (Workbook [headers]))
           \/ exists junk, store_node cfg w' = Some (File (Bytes junk))))
  end.

(** ** Reasoning about statements *)

Lemma wp_run {A} (c : M A) w Q r w' : c w = (r, w') -> wp c w Q -> Q r w'.
Proof. unfold wp. intros ->. auto. Qed.

Lemma wp_mono {A} (c : M A) w (Q Q' : result A -> world -> Prop) :
  wp c w Q -> (forall r w', Q r w' -> Q' r w') -> wp c w Q'.
Proof. unfold wp. auto. Qed.

Lemma wp_ret {A} (a : A) w Q : Q (Ok a) w -> wp (ret a) w Q.
Proof. auto. Qed.

Lemma wp_raise {A} e w (Q : result A -> world -> Prop) : Q (Exc e) w -> wp (raise e) w Q.
Proof. auto. Qed.

Lemma wp_bind {A B} (c : M A) (k : A -> M B) w Q :
  wp c w (fun r w' => match r with
                      | Ok a => wp (k a) w' Q
                      | Exc e => Q (Exc e) w'
                      end) ->
  wp (bind c k) w Q.
Proof. unfold wp, bind. destruct (c w) as [[a|e] w']; auto. Qed.

Lemma wp_try {A} (catches : exn -> bool) (c : M A) (h : exn -> M A) w Q :
  wp c w (fun r w' => match r with
                      | Ok a => Q (Ok a) w'
                      | Exc e => if catches e then wp (h e) w' Q else Q (Exc e) w'
                      end) ->
  wp (try_except catches c h) w Q.
Proof.
  unfold wp, try_except. destruct (c w) as [[a|e] w']; simpl; auto.
  destruct (catches e); auto.
Qed.

Lemma wp_next_outcome w (Q : result outcome -> world -> Prop) :
  (forall o rest, Q (Ok o) (world_with (fs w) rest w)) -> wp next_outcome w Q.
Proof.
  intros H. unfold wp, next_outcome. destruct w as [f s i c]. simpl.
  destruct i as [|o rest]; simpl; [apply (H Returns []) | apply (H o rest)].
Qed.

Lemma wp_fallible w (Q : result unit -> world -> Prop) :
  (forall rest, Q (Ok tt) (world_with (fs w) rest w)) ->
  (forall e rest, Q (Exc e) (world_with (fs w) rest w)) ->
  wp fallible w Q.
Proof.
  intros Hok Hexc. unfold fallible. apply wp_bind, wp_next_outcome.
  intros [|e|e junk] rest; [apply wp_ret | apply wp_raise ..]; auto.
Qed.

Lemma wp_path_exists p w (Q : result bool -> world -> Prop) :
  Q (Ok (match fs w !! p with Some _ => true | None => false end)) w ->
  wp (path_exists p) w Q.
Proof. auto. Qed.

Lemma dirs_added_refl f : dirs_added f f.
Proof. intros p. auto. Qed.

Lemma dirs_added_trans f g h : dirs_added f g -> dirs_added g h -> dirs_added f h.
Proof.
  intros H1 H2 p. destruct (H1 p) as [E1|[N1 D1]], (H2 p) as [E2|[N2 D2]].
  - left. congruence.
  - right. split; congruence.
  - right. split; congruence.
  - congruence.
Qed.

Lemma dirs_added_mkdir d f : dirs_added f (mkdir_if_missing d f).
Proof.
  intros p. unfold mkdir_if_missing. destruct (f !! d) eqn:Hd; [left; reflexivity|].
  destruct (decide (d = p)) as [->|Hne].
  - rewrite lookup_insert_eq. right. split; [exact Hd | reflexivity].
  - rewrite lookup_insert_ne by done. left. reflexivity.
Qed.

Lemma mkdir_creates d f : is_Some (mkdir_if_missing d f !! d).
Proof.
  unfold mkdir_if_missing. destruct (f !! d) eqn:Hd.
  - rewrite Hd. eauto.
  - rewrite lookup_insert_eq. eauto.
Qed.

Lemma mkdir_elsewhere d f p : p <> d -> mkdir_if_missing d f !! p = f !! p.
Proof.
  intros Hne. unfold mkdir_if_missing. destruct (f !! d); [reflexivity|].
  apply lookup_insert_ne. congruence.
Qed.

Lemma lineage_head n d : Py.truthy d = true -> In d (lineage (S n) d).
Proof. intros H. simpl. rewrite H. left. reflexivity. Qed.

(** One [mkdir]: the directory is there when it returns, and nothing has
    changed when it raises. *)
Lemma mkdir_run name w r w' :
  mkdir name w = (r, w') ->
  s3_calls w' = s3_calls w /\ clock w' = clock w /\
  match r with
  | Ok _ => fs w' = mkdir_if_missing name (fs w)
  | Exc _ => fs w' = fs w
  end.
Proof.
  unfold mkdir, bind, fallible, bind, next_outcome. destruct w as [f s i c]. cbn.
  destruct i as [|[|e|e j] i]; cbn; intros [= <- <-]; cbn; auto.
Qed.

(** What [os.makedirs] can do, whether it returns or raises: only the
    directories of the chain are made, each where nothing was; when it
    returns, the first of the chain exists. *)
Lemma makedirs_along_run l : forall w r w',
  makedirs_along l w = (r, w') ->
  s3_calls w' = s3_calls w /\ clock w' = clock w /\
  dirs_added (fs w) (fs w') /\
  (forall p, ~ In p l -> fs w' !! p = fs w !! p) /\
  (forall u d above, r = Ok u -> l = d :: above -> is_Some (fs w' !! d)).
Proof.
  induction l as [|name above IH]; intros w r w'.
  - intros [= <- <-]. repeat split; auto using dirs_added_refl. intros; discriminate.
  - cbn [makedirs_along]. unfold bind at 1.
    set (parents := match above with
                    | [] => ret tt
                    | head :: _ =>
                        bind (path_exists head)
                          (fun e => if negb e then makedirs_along above else ret tt)
                    end).
    assert (Hparents : forall r1 w1, parents w = (r1, w1) ->
              s3_calls w1 = s3_calls w /\ clock w1 = clock w /\
              dirs_added (fs w) (fs w1) /\
              (forall p, ~ In p above -> fs w1 !! p = fs w !! p)).
    { subst parents. destruct above as [|head above'].
      - intros r1 w1 [= <- <-]. auto using dirs_added_refl.
      - unfold bind, path_exists. destruct (fs w !! head); cbn [negb].
        + intros r1 w1 [= <- <-]. auto using dirs_added_refl.
        + intros r1 w1 H1. destruct (IH _ _ _ H1) as (Hs & Hc & Hadd & Hkeep & _). auto. }
    destruct (parents w) as [[u|e] w1] eqn:Hp;
      destruct (Hparents _ _ eq_refl) as (Hs1 & Hc1 & Hadd1 & Hkeep1).
    + intros Hm. destruct (mkdir_run _ _ _ _ Hm) as (Hs & Hc & Hfs).
      split; [congruence|]. split; [congruence|].
      assert (Hnotin : forall p, ~ In p (name :: above) -> p <> name /\ ~ In p above).
      { intros p Hnot. split; [intros -> | intros Hin]; apply Hnot; [left | right]; auto. }
      destruct r as [u'|e'].
      * rewrite Hfs. split; [|split].
        -- eapply dirs_added_trans; [exact Hadd1 | apply dirs_added_mkdir].
        -- intros p Hnot. destruct (Hnotin p Hnot) as (Hne & Hab).
           rewrite mkdir_elsewhere by exact Hne. apply Hkeep1, Hab.
        -- intros _ d above0 _ [= <- _]. apply mkdir_creates.
      * rewrite Hfs. split; [exact Hadd1|]. split.
        -- intros p Hnot. destruct (Hnotin p Hnot) as (_ & Hab). apply Hkeep1, Hab.
        -- intros; discriminate.
    + intros [= <- <-]. split; [exact Hs1|]. split; [exact Hc1|]. split; [exact Hadd1|]. split.
      * intros p Hnot. apply Hkeep1. intros Hin. apply Hnot. right. exact Hin.
      * intros; discriminate.
Qed.

Lemma world_with_run w w' :
  s3_calls w' = s3_calls w -> clock w' = clock w -> w' = world_with (fs w') (io w') w.
Proof. destruct w, w'; simpl; congruence. Qed.

Lemma wp_makedirs d w (Q : result unit -> world -> Prop) :
  Py.truthy d = true ->
  (forall f' rest, dirs_added (fs w) f' -> is_Some (f' !! d) ->
                   Q (Ok tt) (world_with f' rest w)) ->
  (forall e f' rest, dirs_added (fs w) f' -> Q (Exc e) (world_with f' rest w)) ->
  wp (makedirs d) w Q.
Proof.
  intros Hd Hok Hexc. unfold wp. destruct (makedirs d w) as [r w'] eqn:Hrun. cbn [fst snd].
  unfold makedirs in Hrun.
  destruct (makedirs_along_run _ _ _ _ Hrun) as (Hs & Hc & Hadd & _ & Hhead).
  rewrite (world_with_run w w' Hs Hc). destruct r as [[]|e].
  - apply Hok; [exact Hadd|].
    apply (Hhead tt d (if String.eqb (Py.dirname d) d then []
                       else lineage (String.length d) (Py.dirname d)) eq_refl).
    cbn [lineage]. rewrite Hd. reflexivity.
  - apply Hexc, Hadd.
Qed.

Lemma wp_ws_append ws row w (Q : result sheet -> world -> Prop) :
  (forall rest, Q (Ok (ws ++ [row])) (world_with (fs w) rest w)) ->
  (forall e rest, Q (Exc e) (world_with (fs w) rest w)) ->
  wp (ws_append ws row) w Q.
Proof.
  intros Hok Hexc. unfold ws_append. apply wp_bind, wp_fallible; [|auto].
  intros rest. apply wp_ret, Hok.
Qed.

Lemma wp_wb_save wb p w (Q : result unit -> world -> Prop) :
  (forall rest, Q (Ok tt) (world_with (<[p := File (Workbook wb)]> (fs w)) rest w)) ->
  (forall e rest, Q (Exc e) (world_with (fs w) rest w)) ->
  (forall e junk rest, Q (Exc e) (world_with (<[p := File (Bytes junk)]> (fs w)) rest w)) ->
  wp (wb_save wb p) w Q.
Proof.
  intros Hok Hexc Htorn. unfold wb_save. apply wp_bind, wp_next_outcome.
  intros [|e|e junk] rest; unfold wp; simpl.
  - apply Hok.
  - apply Hexc.
  - apply Htorn.
Qed.

Lemma wp_load_workbook p w (Q : result sheet -> world -> Prop) :
  (forall rows rest, fs w !! p = Some (File (Workbook rows)) ->
                     Q (Ok rows) (world_with (fs w) rest w)) ->
  (forall e rest, Q (Exc e) (world_with (fs w) rest w)) ->
  wp (load_workbook p) w Q.
Proof.
  intros Hok Hexc. unfold load_workbook. apply wp_bind, wp_fallible; [|auto].
  intros rest. unfold wp. simpl.
  destruct (fs w !! p) as [[|[rows|raw]]|] eqn:Hp; simpl;
    first [apply Hexc | apply Hok; reflexivity].
Qed.

(** ** The store *)

Section Store.

Variable cfg : config.

Lemma world_with_same w : world_with (fs w) (io w) w = w.
Proof. destruct w; reflexivity. Qed.

Lemma dir_present_added path f f' :
  dirs_added f f' -> dir_present path f -> dir_present path f'.
Proof.
  intros Hadd [Hd|[n Hn]]; [left; done | right].
  destruct (Hadd (Py.dirname path)) as [Heq|[Hnone _]]; [|congruence].
  rewrite Heq, Hn. eauto.
Qed.

Lemma dir_present_insert path p n f :
  dir_present path f -> dir_present path (<[p := n]> f).
Proof.
  intros [Hd|[m Hm]]; [left; done | right].
  destruct (decide (p = Py.dirname path)) as [->|Hne].
  - rewrite lookup_insert_eq. eauto.
  - rewrite lookup_insert_ne by done. eauto.
Qed.

Lemma ensure_dir_noop path w :
  dir_present path (fs w) -> ensure_dir_for_file path w = (Ok tt, w).
Proof.
  unfold ensure_dir_for_file. intros [Hd|[n Hn]].
  - rewrite Hd. reflexivity.
  - destruct (Py.truthy (Py.dirname path)); [|reflexivity].
    unfold bind, path_exists. rewrite Hn. reflexivity.
Qed.

Lemma wp_ensure_dir path w (Q : result unit -> world -> Prop) :
  (forall f' rest, dirs_added (fs w) f' -> dir_present path f' ->
                   Q (Ok tt) (world_with f' rest w)) ->
  (forall e f' rest, dirs_added (fs w) f' -> Q (Exc e) (world_with f' rest w)) ->
  wp (ensure_dir_for_file path) w Q.
Proof.
  intros Hok Hexc. unfold ensure_dir_for_file.
  destruct (Py.truthy (Py.dirname path)) eqn:Hd.
  - apply wp_bind, wp_path_exists.
    destruct (fs w !! Py.dirname path) eqn:Hl; simpl.
    + apply wp_ret. rewrite <- world_with_same.
      apply Hok; [apply dirs_added_refl | right; rewrite Hl; eauto].
    + apply wp_makedirs; [done| |done].
      intros f' rest Hadd Hsome. apply Hok; [done | right; done].
  - apply wp_ret. rewrite <- world_with_same.
    apply Hok; [apply dirs_added_refl | left; done].
Qed.

(** With the store in place [ensure_excel] does nothing at all. *)
Lemma ensure_excel_noop w :
  store_present cfg w -> ensure_excel cfg w = (Ok (true, None), w).
Proof.
  intros [[n Hn] Hdir]. unfold ensure_excel, try_except, bind.
  rewrite (ensure_dir_noop _ _ Hdir). unfold path_exists. rewrite Hn. reflexivity.
Qed.

(** What one call of [ensure_excel] can do. *)
Lemma ensure_excel_post w :
  wp (ensure_excel cfg) w (fun r w' =>
    exists ok err, r = Ok (ok, err) /\
      s3_calls w' = s3_calls w /\ clock w' = clock w /\
      if ok then err = None /\ store_present cfg w'
      else exists tr, err = Some tr).
Proof.
  unfold ensure_excel. apply wp_try, wp_bind, wp_ensure_dir.
  - intros f1 r1 Hadd Hdir. apply wp_bind, wp_path_exists. simpl.
    destruct (f1 !! EXCEL_PATH cfg) eqn:Hp; simpl; apply wp_bind.
    + apply wp_ret, wp_ret. exists true, None. repeat split; auto.
    + apply wp_bind, wp_ws_append.
      * intros r2. apply wp_wb_save.
        -- intros r3. apply wp_ret. exists true, None. repeat split; simpl.
           ++ rewrite lookup_insert_eq. eauto.
           ++ apply dir_present_insert, Hdir.
        -- intros e r3. apply wp_ret. exists false, (Some (trace e)). simpl. eauto 6.
        -- intros e junk r3. apply wp_ret. exists false, (Some (trace e)). simpl. eauto 6.
      * intros e r2. apply wp_ret. exists false, (Some (trace e)). simpl. eauto 6.
  - intros e f1 r1 _. apply wp_ret. exists false, (Some (trace e)). simpl. eauto 6.
Qed.

(** [ensure_excel] run where the directory is present and the store absent:
    it writes the header row, or reports failure. *)
Lemma wp_ensure_excel_fresh w (Q : result (bool * option string) -> world -> Prop) :
  dir_present (EXCEL_PATH cfg) (fs w) -> fs w !! EXCEL_PATH cfg = None ->
  (forall rest, Q (Ok (true, None))
     (world_with (<[EXCEL_PATH cfg := File (Workbook [headers])]> (fs w)) rest w)) ->
  (forall tr f' rest, Q (Ok (false, Some tr)) (world_with f' rest w)) ->
  wp (ensure_excel cfg) w Q.
Proof.
  intros Hdir Hnone Hok Hfail. unfold ensure_excel.
  apply wp_try, wp_bind. unfold wp at 1. rewrite (ensure_dir_noop _ _ Hdir). simpl.
  apply wp_bind, wp_path_exists. rewrite Hnone. simpl.
  apply wp_bind, wp_bind, wp_ws_append.
  - intros r1. apply wp_wb_save.
    + intros r2. apply wp_ret, wp_ret, Hok.
    + intros e r2. apply wp_ret, Hfail.
    + intros e junk r2. apply wp_ret, Hfail.
  - intros e r1. apply wp_ret, Hfail.
Qed.

Lemma appended_failure row w tr f' rest :
  appended cfg row w (Ok (false, Some tr)) (world_with f' rest w).
Proof. exists false, (Some tr). simpl. eauto 6. Qed.

(** The statements after the store is known to exist: load, append, save. *)
Lemma append_tail row w f1 r1 rows0 :
  dir_present (EXCEL_PATH cfg) f1 ->
  (forall rows, f1 !! EXCEL_PATH cfg = Some (File (Workbook rows)) ->
     rows = rows0 /\
     (store_rows cfg w = Some rows0 \/ (fs w !! EXCEL_PATH cfg = None /\ rows0 = [headers]))) ->
  wp (ws <- load_workbook (EXCEL_PATH cfg);;
      ws' <- ws_append ws row;;
      wb_save ws' (EXCEL_PATH cfg);;
      ret (true, @None string)) (world_with f1 r1 w)
     (fun r w' => match r with
                  | Ok a => appended cfg row w (Ok a) w'
                  | Exc e => exists f' rest, w' = world_with f' rest w
                  end).
Proof.
  intros Hdir Hrows. apply wp_bind, wp_load_workbook; [|simpl; eauto].
  intros rows r2 Hl. simpl in Hl. destruct (Hrows _ Hl) as [-> Hold].
  apply wp_bind, wp_ws_append; [|simpl; eauto].
  intros r3. apply wp_bind, wp_wb_save; [|simpl; eauto..].
  intros r4. apply wp_ret. exists true, None.
  unfold store_present, store_rows at 1. simpl. repeat split.
  - rewrite lookup_insert_eq. eauto.
  - apply dir_present_insert, Hdir.
  - exists rows0. rewrite lookup_insert_eq. auto.
Qed.

Lemma append_post row w : wp (append_row_and_save cfg row) w (appended cfg row w).
Proof.
  assert (Hend : forall r w',
             match r with
             | Ok a => appended cfg row w (Ok a) w'
             | Exc e => exists f' rest, w' = world_with f' rest w
             end ->
             match r with
             | Ok a => appended cfg row w (Ok a) w'
             | Exc e => if any_exception e
                        then wp (ret (false, Some (trace e))) w' (appended cfg row w)
                        else appended cfg row w (Exc e) w'
             end).
  { intros [a|e] w'; [auto|]. intros (f' & rest & ->). apply wp_ret, appended_failure. }
  unfold append_row_and_save. apply wp_try, wp_bind, wp_ensure_dir.
  - intros f1 r1 Hadd Hdir. apply wp_bind, wp_path_exists. simpl.
    destruct (f1 !! EXCEL_PATH cfg) as [n|] eqn:Hp; simpl.
    + (* the store exists *)
      eapply wp_mono; [|apply Hend].
      destruct (store_rows cfg w) as [rows0|] eqn:Hw.
      * apply (append_tail row w f1 r1 rows0 Hdir). intros rows Hl. split; [|auto].
        unfold store_rows in Hw. destruct (Hadd (EXCEL_PATH cfg)) as [Heq|[Hn Hd]].
        -- rewrite Hl in Heq. rewrite <- Heq in Hw. congruence.
        -- congruence.
      * apply (append_tail row w f1 r1 [] Hdir). intros rows Hl. exfalso.
        unfold store_rows in Hw. destruct (Hadd (EXCEL_PATH cfg)) as [Heq|[Hn Hd]].
        -- rewrite Hl in Heq. rewrite <- Heq in Hw. congruence.
        -- congruence.
    + (* no store: the header row is written first *)
      assert (Hw : fs w !! EXCEL_PATH cfg = None).
      { destruct (Hadd (EXCEL_PATH cfg)) as [Heq|[Hn _]]; congruence. }
      apply wp_bind, wp_ensure_excel_fresh; [done | done | |].
      * intros r2. simpl. eapply wp_mono; [|apply Hend].
        apply (append_tail row w _ r2 [headers]).
        -- apply dir_present_insert, Hdir.
        -- intros rows. rewrite lookup_insert_eq. intros [= <-]. auto.
      * intros tr f' r2. simpl. apply wp_ret, appended_failure.
  - intros e f1 r1 _. apply wp_ret, appended_failure.
Qed.

End Store.

Lemma present_truthy s : Contract.present s = Py.truthy s.
Proof. destruct s; reflexivity. Qed.

Lemma digit_count_filter s :
  Contract.digit_count s = String.length (Py.filter_chars Py.isdigit s).
Proof.
  unfold Contract.digit_count. induction s as [|c s IH]; simpl; [reflexivity|].
  destruct (Py.isdigit c); simpl; congruence.
Qed.

(** [split] yields one piece exactly when the separator does not occur, and
    then [l[-1]] of a longer list is the text after the last separator. *)
Lemma split_after_last c s :
  (Py.contains c s = false /\ Py.split c s = [s] /\ Contract.after_last c s = None)
  \/ (Py.contains c s = true /\ (exists h x t, Py.split c s = h :: x :: t)
      /\ Contract.after_last c s = Some (Py.last_item (Py.split c s))).
Proof.
  induction s as [|d s IH]; simpl; [left; auto|].
  rewrite (Ascii.eqb_sym c d).
  destruct IH as [(Hc & Hs & Ha)|(Hc & (h & x & t & Hs) & Ha)]; rewrite Hc, Ha, Hs.
  - destruct (Ascii.eqb d c) eqn:Hd; simpl.
    + right. repeat split; eauto.
    + left. auto.
  - rewrite orb_true_r. right. split; [reflexivity|].
    destruct (Ascii.eqb d c); simpl; split; eauto.
Qed.

Lemma short_rule s n :
  negb (Py.truthy s) || (String.length s <? n)%nat
  = negb (Contract.present s && (n <=? String.length s)%nat).
Proof.
  rewrite present_truthy, Nat.ltb_antisym.
  destruct (Py.truthy s), (n <=? String.length s)%nat; reflexivity.
Qed.

Lemma phone_rule s :
  negb (Py.truthy s) || (String.length (Py.filter_chars Py.isdigit s) <? 6)%nat
  = negb (Contract.present s && (6 <=? Contract.digit_count s)%nat).
Proof.
  rewrite present_truthy, digit_count_filter, Nat.ltb_antisym.
  destruct (Py.truthy s), (6 <=? _)%nat; reflexivity.
Qed.

Lemma email_rule s :
  negb (Py.truthy s) || negb (Py.contains "@" s)
    || negb (Py.contains "." (Py.last_item (Py.split "@" s)))
  = negb (Contract.present s &&
          match Contract.after_last "@" s with
          | Some domain => Py.contains "." domain
          | None => false
          end).
Proof.
  rewrite present_truthy.
  destruct (split_after_last "@" s) as [(Hc & _ & Ha)|(Hc & _ & Ha)];
    rewrite Hc, Ha; destruct (Py.truthy s); simpl; reflexivity.
Qed.

(** The code applies the contract's rules: its early return carries the
    error of the first failing rule, and it falls through with the parsed
    amount when none fails. *)
Lemma validation_refines f :
  match Contract.first_failure f with
  | Some r => basic_validation f = inl (bad_request (Contract.error r))
              /\ In r Contract.rules /\ Contract.holds r f = false
  | None => exists raw_amount, basic_validation f = inr raw_amount
              /\ Py.float_of_str (amount_raw f) = Some raw_amount
  end.
Proof.
  unfold basic_validation.
  rewrite !short_rule, phone_rule, email_rule.
  unfold Contract.first_failure, Contract.rules, List.find.
  cbn [Contract.holds Contract.error In].
  repeat match goal with
         | |- context [negb (Contract.present ?s && ?b)] =>
             let H := fresh "H" in
             destruct (Contract.present s && b) eqn:H; cbn [negb]
         end; try (intuition; fail).
  destruct (Py.float_of_str (amount_raw f)) as [raw|] eqn:Hf; cbn [negb].
  - eauto.
  - intuition. cbn. rewrite Hf. reflexivity.
Qed.

(** ** The paths through [submit] *)

Section Handler.

Variable cfg : config.

Lemma utcnow_run w :
  exists now w1, utcnow w = (Ok now, w1) /\
    fs w1 = fs w /\ s3_calls w1 = s3_calls w /\ io w1 = io w.
Proof.
  unfold utcnow. destruct (clock w) as [|t rest]; eauto 8.
Qed.

Lemma amount_rule_run flag_text raw_amount w :
  (exists amount_sent multiplied_flag,
      amount_rule cfg flag_text raw_amount w = (Ok (amount_sent, multiplied_flag), w))
  \/ (exists e, amount_rule cfg flag_text raw_amount w = (Exc e, w)).
Proof.
  unfold amount_rule. destruct (String.eqb flag_text "1"); [|left; eauto].
  destruct (Py.float_mul_int raw_amount (MULTIPLIER cfg)); [left | right]; eauto.
Qed.

Lemma amount_rule_pure flag_text raw_amount w r w' :
  amount_rule cfg flag_text raw_amount w = (r, w') -> w' = w.
Proof.
  destruct (amount_rule_run flag_text raw_amount w) as [(a & b & H)|(e & H)];
    rewrite H; congruence.
Qed.

Lemma submit_rejected rf w early :
  basic_validation (read_form rf) = inl early -> submit cfg rf w = (Ok early, w).
Proof. intros H. unfold submit, try_except. rewrite H. reflexivity. Qed.

Lemma submit_overflow rf w raw_amount e :
  basic_validation (read_form rf) = inr raw_amount ->
  amount_rule cfg (reopened (read_form rf)) raw_amount w = (Exc e, w) ->
  submit cfg rf w = (Ok (server_error e), w).
Proof.
  intros Hv Ha. unfold submit, try_except, bind. rewrite Hv, Ha. reflexivity.
Qed.

Lemma submit_save_failed rf w raw_amount amount_sent multiplied_flag now w1 err w2 :
  basic_validation (read_form rf) = inr raw_amount ->
  amount_rule cfg (reopened (read_form rf)) raw_amount w = (Ok (amount_sent, multiplied_flag), w) ->
  utcnow w = (Ok now, w1) ->
  append_row_and_save cfg (submission_row (strftime_row now) (read_form rf) amount_sent) w1
    = (Ok (false, err), w2) ->
  submit cfg rf w = (Ok (save_failed cfg err), w2).
Proof.
  intros Hv Ha Hn Hs. unfold submit, try_except, bind.
  rewrite Hv, Ha, Hn, Hs. simpl.
  destruct (configured (S3_BUCKET cfg)); reflexivity.
Qed.

Lemma submit_saved rf w raw_amount amount_sent multiplied_flag now w1 err w2 :
  basic_validation (read_form rf) = inr raw_amount ->
  amount_rule cfg (reopened (read_form rf)) raw_amount w = (Ok (amount_sent, multiplied_flag), w) ->
  utcnow w = (Ok now, w1) ->
  append_row_and_save cfg (submission_row (strftime_row now) (read_form rf) amount_sent) w1
    = (Ok (true, err), w2) ->
  submit cfg rf w =
    match sync_step cfg w2 with
    | (Ok s3_result, w3) =>
        (Ok (success cfg (read_form rf) amount_sent multiplied_flag (store_exists cfg w2) s3_result), w3)
    | (Exc e, w3) => (Ok (server_error e), w3)
    end.
Proof.
  intros Hv Ha Hn Hs. unfold submit, try_except, bind, sync_step.
  rewrite Hv, Ha, Hn, Hs. simpl. unfold store_exists.
  destruct (configured (S3_BUCKET cfg)); simpl.
  - destruct (upload_to_s3 _ _ _ _ _) as [[j|e] w3]; reflexivity.
  - reflexivity.
Qed.

Lemma append_run row w :
  exists ok err w', append_row_and_save cfg row w = (Ok (ok, err), w')
                    /\ appended cfg row w (Ok (ok, err)) w'.
Proof.
  destruct (append_row_and_save cfg row w) as [r w'] eqn:H.
  pose proof (wp_run _ _ _ _ _ H (append_post cfg row w)) as Hp.
  destruct Hp as (ok & err & -> & Hrest). exists ok, err, w'. split; [done|].
  exists ok, err. auto.
Qed.

(** [submit] never raises, and its answer comes from one of the paths. *)
Lemma submit_runs rf w :
  exists resp w', submit cfg rf w = (Ok resp, w') /\ submit_path cfg rf w resp w'.
Proof.
  destruct (basic_validation (read_form rf)) as [early|raw] eqn:Hv.
  { exists early, w. split; [apply submit_rejected, Hv | constructor; done]. }
  destruct (amount_rule_run (reopened (read_form rf)) raw w) as [(a & b & Ha)|(e & Ha)].
  2:{ exists (server_error e), w. split; [eapply submit_overflow | econstructor 2]; eauto. }
  destruct (utcnow_run w) as (now & w1 & Hn & _).
  destruct (append_run (submission_row (strftime_row now) (read_form rf) a) w1)
    as (ok & err & w2 & Hs & (ok' & err' & [= <- <-] & _ & _ & Hok)).
  destruct ok.
  - destruct Hok as (-> & Hpres & _).
    destruct (sync_step cfg w2) as [r w3] eqn:Hsync.
    eexists _, w3. split.
    + erewrite submit_saved by eauto. rewrite Hsync.
      unfold store_exists. destruct Hpres as [[n ->] _].
      instantiate (1 := match r with
                        | Ok j => success cfg (read_form rf) a b true j
                        | Exc e => server_error e
                        end).
      destruct r; reflexivity.
    + eapply path_saved; eauto.
  - destruct Hok as (tr & ->).
    exists (save_failed cfg (Some tr)), w2. split.
    + eapply submit_save_failed; eauto.
    + eapply path_save_failed; eauto.
Qed.

Lemma submit_inv rf w resp w' :
  submit cfg rf w = (Ok resp, w') -> submit_path cfg rf w resp w'.
Proof.
  intros H. destruct (submit_runs rf w) as (resp0 & w0 & H0 & Hp).
  rewrite H in H0. injection H0 as <- <-. exact Hp.
Qed.

End Handler.

(** ** The sync step *)

Section Sync.

Variable cfg : config.

Lemma upload_to_s3_run local_path bucket w :
  configured bucket = true ->
  exists key w',
    fs w' = fs w /\
    upload_to_s3 cfg local_path bucket None w =
      (match s3_raises (io w) with
       | None => Ok (JObj [("ok", JBool true); ("key", JStr key); ("bucket", opt_json bucket)])
       | Some e => if boto_errors e then Ok (upload_failed e) else Exc e
       end, w').
Proof.
  intros Hb. unfold upload_to_s3. rewrite Hb. cbn [negb].
  destruct w as [f s i c]. unfold bind at 1.
  pose (now := match c with [] => DateTime 1970 1 1 0 0 0 | t :: _ => t end).
  exists ("submissions/" ++ strftime_key now ++ "_" ++ Py.basename local_path)%string.
  subst now.
  destruct c as [|t c]; cbn [utcnow clock ret];
    (destruct i as [|[|e1|e1 j1] [|[|e2|e2 j2] i]]; cbn;
     try (destruct (boto_errors e1) eqn:H1; cbn; rewrite ?H1);
     try (destruct (boto_errors e2) eqn:H2; cbn; rewrite ?H2);
     eexists; (split; [|reflexivity]); reflexivity).
Qed.

Lemma sync_step_fs w r w' : sync_step cfg w = (r, w') -> fs w' = fs w.
Proof.
  unfold sync_step. destruct (configured (S3_BUCKET cfg)) eqn:Hb.
  - destruct (upload_to_s3_run (EXCEL_PATH cfg) (S3_BUCKET cfg) w Hb) as (k & w0 & Hfs & ->).
    intros [= _ <-]. exact Hfs.
  - intros [= _ <-]. reflexivity.
Qed.

Lemma rejection_status f early : basic_validation f = inl early -> snd early = 400%nat.
Proof.
  pose proof (validation_refines f) as H.
  destruct (Contract.first_failure f) as [r|].
  - destruct H as (-> & _). intros [= <-]. reflexivity.
  - destruct H as (raw & -> & _). discriminate.
Qed.

(** A 200 answer is the end of the one path on which the row was saved. *)
Lemma submit_200 rf w body w' :
  submit cfg rf w = (Ok (body, 200%nat), w') ->
  exists raw_amount amount_sent multiplied_flag now w1 w2 s3_result rows,
    basic_validation (read_form rf) = inr raw_amount /\
    amount_rule cfg (reopened (read_form rf)) raw_amount w
      = (Ok (amount_sent, multiplied_flag), w) /\
    utcnow w = (Ok now, w1) /\
    append_row_and_save cfg (submission_row (strftime_row now) (read_form rf) amount_sent) w1
      = (Ok (true, None), w2) /\
    sync_step cfg w2 = (Ok s3_result, w') /\
    (body, 200%nat) = success cfg (read_form rf) amount_sent multiplied_flag true s3_result /\
    store_rows cfg w'
      = Some (rows ++ [submission_row (strftime_row now) (read_form rf) amount_sent]) /\
    (store_rows cfg w = Some rows \/ (fs w !! EXCEL_PATH cfg = None /\ rows = [headers])).
Proof.
  intros H. apply submit_inv in H. inversion H; subst; clear H.
  - match goal with
    | Hv : basic_validation _ = inl _ |- _ => apply rejection_status in Hv; discriminate
    end.
  - match goal with
    | Hv : basic_validation _ = inr ?raw, Ha : amount_rule _ _ _ _ = (Ok (?a, ?b), _),
      Hn : utcnow w = (Ok ?now, ?w1), Hs : append_row_and_save _ _ _ = (_, ?w2),
      Hsync : sync_step _ _ = (?r, _), Hr : _ = (body, 200%nat) |- _ =>
        destruct r as [j|e]; [|discriminate];
        pose proof (wp_run _ _ _ _ _ Hs (append_post cfg _ w1)) as Hp;
        destruct Hp as (ok & err & Hok & _ & _ & Hrows);
        injection Hok as <- <-;
        destruct Hrows as (_ & _ & rows & Hnew & Hold);
        destruct (utcnow_run w) as (now' & w1' & Hn' & Hfs1 & _);
        rewrite Hn in Hn'; injection Hn' as <- <-;
        exists raw, a, b, now, w1, w2, j, rows; repeat split; auto;
        unfold store_rows in *;
        [rewrite (sync_step_fs _ _ _ Hsync); exact Hnew | rewrite Hfs1 in Hold; exact Hold]
    end.
Qed.

End Sync.

(** ** Validation *)

Lemma error_identifies_field r r' :
  In r Contract.rules -> In r' Contract.rules ->
  Contract.error r' = Contract.error r -> Contract.field r' = Contract.field r.
Proof.
  unfold Contract.rules. cbn [In]. intros H H'.
  repeat (destruct H as [<-|H]; [|]); try contradiction;
    (repeat (destruct H' as [<-|H']; [|]); try contradiction);
    cbn; intros He; first [reflexivity | discriminate He].
Qed.

(** C8. A submission that fails validation is answered 400 with the error
    of the first failing rule, the error naming one field only; the world
    after the request is the world before it, so the store file is as it
    was, nothing was appended, and no call to S3 was made. *)
Theorem rejection_changes_nothing cfg rf w early :
  basic_validation (read_form rf) = inl early ->
  submit cfg rf w = (Ok early, w) /\
  exists r,
    Contract.first_failure (read_form rf) = Some r /\
    early = (Json (jsonify [("success", JBool false); ("error", JStr (Contract.error r))]),
             400%nat) /\
    forall r', In r' Contract.rules -> Contract.error r' = Contract.error r ->
               Contract.field r' = Contract.field r.
Proof.
  intros Hv. split; [apply submit_rejected, Hv|].
  pose proof (validation_refines (read_form rf)) as H.
  destruct (Contract.first_failure (read_form rf)) as [r|] eqn:Hf.
  - destruct H as (Hb & Hin & _). exists r. split; [reflexivity|]. split.
    + rewrite Hb in Hv. injection Hv as <-. reflexivity.
    + intros r' Hin'. apply error_identifies_field; assumption.
  - destruct H as (raw & Hb & _). congruence.
Qed.

Lemma rejection_changes_nothing_witness :
  submit Example.cfg (Example.entry "A" "12.5" "0") Example.empty_dir
  = (Ok (bad_request "Name too short"), Example.empty_dir).
Proof.
  apply (rejection_changes_nothing Example.cfg (Example.entry "A" "12.5" "0")
           Example.empty_dir (bad_request "Name too short")).
  reflexivity.
Defined.

(** C2. The validator applies the six rules of the contract in their
    order and stops at the first that fails: the answer is then 400 with
    that rule's error and nothing else happens; the six errors are pairwise
    distinct; and when no rule fails the answer is not a 400. The rules read
    the fields as [submit] reads them from the form. *)
Theorem validation_follows_contract cfg rf w :
  NoDup (map Contract.error Contract.rules) /\
  match Contract.first_failure (read_form rf) with
  | Some r =>
      submit cfg rf w
      = (Ok (Json (jsonify [("success", JBool false); ("error", JStr (Contract.error r))]),
             400%nat), w)
  | None => exists resp w', submit cfg rf w = (Ok resp, w') /\ snd resp <> 400%nat
  end.
Proof.
  split.
  { apply (bool_decide_unpack (NoDup (map Contract.error Contract.rules))).
    vm_compute. exact I. }
  pose proof (validation_refines (read_form rf)) as H.
  destruct (Contract.first_failure (read_form rf)) as [r|].
  - destruct H as (Hb & _). apply (submit_rejected cfg rf w _ Hb).
  - destruct H as (raw & Hb & _).
    destruct (submit_runs cfg rf w) as (resp & w' & Hrun & Hpath).
    exists resp, w'. split; [exact Hrun|].
    inversion Hpath; subst; try congruence; try (cbn; discriminate).
    match goal with |- snd (match ?r with _ => _ end) <> _ => destruct r; cbn; discriminate end.
Qed.

(** ** The amount rule *)


Lemma amount_rule_result cfg flag_text raw_amount w amount_sent multiplied_flag w' :
  amount_rule cfg flag_text raw_amount w = (Ok (amount_sent, multiplied_flag), w') ->
  if String.eqb flag_text "1"
  then Py.float_mul_int raw_amount (MULTIPLIER cfg) = Some amount_sent /\ multiplied_flag = true
  else amount_sent = raw_amount /\ multiplied_flag = false.
Proof.
  unfold amount_rule. destruct (String.eqb flag_text "1").
  - destruct (Py.float_mul_int raw_amount (MULTIPLIER cfg)); [|discriminate].
    intros [= <- <- _]. auto.
  - intros [= <- <- _]. auto.
Qed.




(** ** Saving and syncing *)


(** C5. When the append of a submission fails, the answer is 500 with the
    failure trace and [EXCEL_PATH], and no call to S3 has been made. The
    hypotheses follow the request up to the append: validation passes, the
    amount rule gives [amount_sent], the clock is read, and
    [append_row_and_save] reports failure. *)
Theorem append_failure_is_500 cfg rf w raw_amount amount_sent multiplied_flag now w1 err w2 :
  basic_validation (read_form rf) = inr raw_amount ->
  amount_rule cfg (reopened (read_form rf)) raw_amount w
    = (Ok (amount_sent, multiplied_flag), w) ->
  utcnow w = (Ok now, w1) ->
  append_row_and_save cfg (submission_row (strftime_row now) (read_form rf) amount_sent) w1
    = (Ok (false, err), w2) ->
  exists save_trace,
    err = Some save_trace /\
    submit cfg rf w
    = (Ok (Json (jsonify [("success", JBool false);
                          ("error", JStr "Failed to save Excel");
                          ("save_trace", JStr save_trace);
                          ("file_path", JStr (EXCEL_PATH cfg))]), 500%nat), w2) /\
    s3_calls w2 = s3_calls w.
Proof.
  intros Hv Ha Hn Hs.
  pose proof (wp_run _ _ _ _ _ Hs (append_post cfg _ w1)) as Hp.
  destruct Hp as (ok & err' & Hok & Hcalls & _ & Hrest).
  injection Hok as <- <-. destruct Hrest as (tr & ->).
  exists tr. split; [reflexivity|]. split.
  - apply (submit_save_failed cfg rf w raw_amount amount_sent multiplied_flag now w1
             (Some tr) w2); assumption.
  - rewrite Hcalls. destruct (utcnow_run w) as (now' & w1' & Hn' & _ & Hs3 & _).
    rewrite Hn in Hn'. injection Hn' as <- <-. exact Hs3.
Qed.

Lemma append_failure_is_500_witness :
  exists save_trace,
    Some (trace Failing.disk_error) = Some save_trace /\
    submit Example.cfg (Example.entry "Ann" "12.5" "0") Failing.full_disk
    = (Ok (Json (jsonify [("success", JBool false);
                          ("error", JStr "Failed to save Excel");
                          ("save_trace", JStr save_trace);
                          ("file_path", JStr (EXCEL_PATH Example.cfg))]), 500%nat),
       Example.empty_dir) /\
    s3_calls Example.empty_dir = s3_calls Failing.full_disk.
Proof.
  apply (append_failure_is_500 Example.cfg (Example.entry "Ann" "12.5" "0") Failing.full_disk
           Example.twelve_and_half Example.twelve_and_half false
           (DateTime 1970 1 1 0 0 0) Failing.full_disk).
  - vm_compute. reflexivity.
  - vm_compute. reflexivity.
  - vm_compute. reflexivity.
  - vm_compute. reflexivity.
Defined.

(** X22. What the sync step does for the exceptions it catches. When the
    append of a submission succeeds and the upload does not raise an
    exception outside [BotoCoreError] and [ClientError], the answer is 200:
    with no bucket configured its [s3_upload] is the "skipped" object and
    nothing is done; with a bucket, [s3_upload] is the upload's result,
    which for an upload that raised one of the two classes is the object
    holding its error and trace. *)
Theorem sync_result_in_success cfg rf w raw_amount amount_sent multiplied_flag now w1 err w2 :
  basic_validation (read_form rf) = inr raw_amount ->
  amount_rule cfg (reopened (read_form rf)) raw_amount w
    = (Ok (amount_sent, multiplied_flag), w) ->
  utcnow w = (Ok now, w1) ->
  append_row_and_save cfg (submission_row (strftime_row now) (read_form rf) amount_sent) w1
    = (Ok (true, err), w2) ->
  (configured (S3_BUCKET cfg) = true ->
   forall e, s3_raises (io w2) = Some e -> boto_errors e = true) ->
  exists s3_result w3,
    submit cfg rf w
    = (Ok (Json (jsonify [("success", JBool true);
                          ("amount_sent", JFloat amount_sent);
                          ("reopened_received", JStr (reopened (read_form rf)));
                          ("multiplied", JBool multiplied_flag);
                          ("file_exists", JBool true);
                          ("file_path", JStr (EXCEL_PATH cfg));
                          ("s3_upload", s3_result)]), 200%nat), w3) /\
    (configured (S3_BUCKET cfg) = false -> s3_result = skipped_upload /\ w3 = w2) /\
    (configured (S3_BUCKET cfg) = true ->
     match s3_raises (io w2) with
     | Some e => s3_result = upload_failed e
     | None => jget "ok" s3_result = Some (JBool true)
     end).
Proof.
  intros Hv Ha Hn Hs Hcaught.
  pose proof (wp_run _ _ _ _ _ Hs (append_post cfg _ w1)) as Hp.
  destruct Hp as (ok & err' & Hok & _ & _ & Hrest).
  injection Hok as <- <-. destruct Hrest as (_ & [[n Hn2] _] & _).
  rewrite (submit_saved cfg rf w raw_amount amount_sent multiplied_flag now w1 err w2)
    by assumption.
  unfold store_exists. rewrite Hn2. unfold sync_step.
  destruct (configured (S3_BUCKET cfg)) eqn:Hb.
  - destruct (upload_to_s3_run cfg (EXCEL_PATH cfg) (S3_BUCKET cfg) w2 Hb)
      as (key & w3 & _ & ->).
    destruct (s3_raises (io w2)) as [e|] eqn:Hr.
    + rewrite (Hcaught eq_refl e eq_refl).
      exists (upload_failed e), w3. split; [reflexivity|]. split; [discriminate | auto].
    + eexists _, w3. split; [reflexivity|]. split; [discriminate | intros _; reflexivity].
  - exists skipped_upload, w2. split; [reflexivity|]. split; [auto | discriminate].
Qed.

Lemma sync_result_in_success_witness :
  exists s3_result w3,
    submit Failing.with_bucket (Example.entry "Ann" "12.5" "0")
           (Failing.upload_raises Failing.access_denied)
    = (Ok (Json (jsonify [("success", JBool true);
                          ("amount_sent", JFloat Example.twelve_and_half);
                          ("reopened_received", JStr "0");
                          ("multiplied", JBool false);
                          ("file_exists", JBool true);
                          ("file_path", JStr "/app/submissions.xlsx");
                          ("s3_upload", s3_result)]), 200%nat), w3) /\
    s3_result = upload_failed Failing.access_denied.
Proof.
  destruct (sync_result_in_success Failing.with_bucket (Example.entry "Ann" "12.5" "0")
              (Failing.upload_raises Failing.access_denied)
              Example.twelve_and_half Example.twelve_and_half false
              (DateTime 1970 1 1 0 0 0) (Failing.upload_raises Failing.access_denied) None
              (snd (append_row_and_save Failing.with_bucket
                      (submission_row "1970-01-01 00:00:00"
                         (read_form (Example.entry "Ann" "12.5" "0")) Example.twelve_and_half)
                      (Failing.upload_raises Failing.access_denied))))
    as (j & w3 & Hrun & _ & Hup).
  - vm_compute. reflexivity.
  - vm_compute. reflexivity.
  - vm_compute. reflexivity.
  - vm_compute. reflexivity.
  - intros _ e He. vm_compute in He. injection He as <-. reflexivity.
  - exists j, w3. split; [exact Hrun|]. apply (Hup eq_refl).
Defined.

(** C6. The answer is not always 200 once the row is saved. A bucket is
    configured, the append reports success, and [upload_file] raises an
    exception that is neither a [BotoCoreError] nor a [ClientError] (boto3
    raises its own [S3UploadFailedError] when the transfer is refused).
    [upload_to_s3] catches the two classes only and lets it pass, the
    handler's own [except Exception] answers 500 with no [s3_upload]
    member, and the row stays in the store. *)
Lemma uncaught_upload_error_is_500 :
  fst (append_row_and_save Failing.with_bucket
         (submission_row "1970-01-01 00:00:00"
            (read_form (Example.entry "Ann" "12.5" "0")) Example.twelve_and_half)
         (Failing.upload_raises Failing.upload_failure))
  = Ok (true, None)
  /\ fst (submit Failing.with_bucket (Example.entry "Ann" "12.5" "0")
            (Failing.upload_raises Failing.upload_failure))
     = Ok (Json (jsonify [("success", JBool false);
                          ("error", JStr (message Failing.upload_failure));
                          ("trace", JStr (trace Failing.upload_failure))]), 500%nat)
  /\ store_rows Failing.with_bucket
       (snd (submit Failing.with_bucket (Example.entry "Ann" "12.5" "0")
               (Failing.upload_raises Failing.upload_failure)))
     = Some [headers;
             submission_row "1970-01-01 00:00:00"
               (read_form (Example.entry "Ann" "12.5" "0")) Example.twelve_and_half].
Proof. vm_compute. repeat split; reflexivity. Qed.

(** ** What [strip] does *)

Lemma lstrip_by_spec p s :
  exists l, s = (l ++ Py.lstrip_by p s)%string /\ all_chars p l = true /\
            forall c, first_char (Py.lstrip_by p s) = Some c -> p c = false.
Proof.
  induction s as [|c s (l & Hs & Hl & Hc)]; cbn.
  - exists EmptyString. split; [reflexivity|]. split; [reflexivity | discriminate].
  - destruct (p c) eqn:Hp.
    + exists (String c l). split; [exact (f_equal (String c) Hs)|].
      split; [simpl; rewrite Hp, Hl; reflexivity | exact Hc].
    + exists EmptyString. split; [reflexivity|]. split; [reflexivity|].
      cbn. intros c' [= <-]. exact Hp.
Qed.

Lemma rstrip_by_spec p s :
  exists r, s = (Py.rstrip_by p s ++ r)%string /\ all_chars p r = true /\
            (forall c, last_char (Py.rstrip_by p s) = Some c -> p c = false) /\
            (forall c, first_char s = Some c -> p c = false ->
                       first_char (Py.rstrip_by p s) = Some c).
Proof.
  induction s as [|c s (r & Hs & Hr & Hlast & _)]; cbn.
  - exists EmptyString. repeat split; try reflexivity; discriminate.
  - destruct (Py.rstrip_by p s) as [|d t] eqn:Ht; cbn.
    + change (s = r) in Hs. subst r. destruct (p c) eqn:Hp; simpl.
      * exists (String c s). simpl. rewrite Hp, Hr.
        repeat split; try reflexivity; try discriminate.
        intros c' [= <-]. congruence.
      * exists s. repeat split; auto. intros c' [= <-]. exact Hp.
    + rewrite andb_false_r. exists r. split; [exact (f_equal (String c) Hs)|].
      split; [exact Hr|]. split; [|auto]. exact Hlast.
Qed.

Lemma strip_spec s : stripped_of s (Py.strip s).
Proof.
  unfold Py.strip.
  destruct (lstrip_by_spec Py.isspace s) as (l & Hl & Hal & Hfirst).
  destruct (rstrip_by_spec Py.isspace (Py.lstrip_by Py.isspace s)) as (r & Hr & Har & Hlast & Hkeep).
  exists l, r. split; [congruence|]. split; [exact Hal|]. split; [exact Har|].
  split; [|exact Hlast].
  intros c Hc. destruct (Py.lstrip_by Py.isspace s) as [|d t] eqn:Ht.
  - cbn in Hc. discriminate.
  - pose proof (Hfirst d eq_refl) as Hd. rewrite (Hkeep d eq_refl Hd) in Hc.
    injection Hc as <-. exact Hd.
Qed.

(** ** The reopened flag and the stripped fields *)

(** C9 as stated fails: a reopened value of " 1" is not the string "1",
    yet the amount is multiplied, and the answer echoes "1", not " 1". *)
Lemma padded_one_is_multiplied :
  form_get (Example.entry "Ann" "12.5" " 1") "reopened" = Some " 1"
  /\ fst (submit Example.cfg (Example.entry "Ann" "12.5" " 1") Example.empty_dir)
     = Ok (Json (jsonify [("success", JBool true);
                          ("amount_sent", JFloat Example.twelve_fifty);
                          ("reopened_received", JStr "1");
                          ("multiplied", JBool true);
                          ("file_exists", JBool true);
                          ("file_path", JStr "/app/submissions.xlsx");
                          ("s3_upload", skipped_upload)]), 200%nat).
Proof. vm_compute. split; reflexivity. Qed.

(** C9, as the code has it. The reopened value the handler works with is
    the form's value, "0" when the field is absent or empty, with leading
    and trailing whitespace stripped. On a 200 answer that value is what
    [reopened_received] echoes, and whenever it is not "1" the amount passes
    through unmultiplied with [multiplied] false. *)
Theorem reopened_rule_on_stripped_value cfg rf w raw_amount answer w' :
  basic_validation (read_form rf) = inr raw_amount ->
  submit cfg rf w = (Ok (Json answer, 200%nat), w') ->
  (form_get rf "reopened" = None -> reopened (read_form rf) = "0") /\
  stripped_of (Py.or_else (form_get rf "reopened") "0") (reopened (read_form rf)) /\
  jget "reopened_received" answer = Some (JStr (reopened (read_form rf))) /\
  (reopened (read_form rf) <> "1" ->
   jget "amount_sent" answer = Some (JFloat raw_amount) /\
   jget "multiplied" answer = Some (JBool false)).
Proof.
  intros Hv Hrun.
  destruct (submit_200 cfg rf w _ w' Hrun)
    as (raw & a & b & now & w1 & w2 & j & rows & Hv' & Ha & _ & _ & _ & Hbody & _).
  rewrite Hv in Hv'. injection Hv' as <-. injection Hbody as ->.
  split; [intros Hnone; unfold read_form; cbn [reopened]; rewrite Hnone; reflexivity|].
  split; [apply strip_spec|]. split; [reflexivity|].
  intros Hne. apply amount_rule_result in Ha.
  destruct (String.eqb_spec (reopened (read_form rf)) "1") as [Heq|_]; [contradiction|].
  destruct Ha as [-> ->]. split; reflexivity.
Qed.

Lemma reopened_rule_on_stripped_value_witness :
  jget "reopened_received"
       (JObj [("success", JBool true);
              ("amount_sent", JFloat Example.twelve_and_half);
              ("reopened_received", JStr "true");
              ("multiplied", JBool false);
              ("file_exists", JBool true);
              ("file_path", JStr "/app/submissions.xlsx");
              ("s3_upload", skipped_upload)])
  = Some (JStr (reopened (read_form (Example.entry "Ann" "12.5" " true ")))).
Proof.
  apply (reopened_rule_on_stripped_value Example.cfg (Example.entry "Ann" "12.5" " true ")
           Example.empty_dir Example.twelve_and_half _
           (snd (submit Example.cfg (Example.entry "Ann" "12.5" " true ") Example.empty_dir))).
  - vm_compute. reflexivity.
  - vm_compute. reflexivity.
Defined.

(** C10. Each of the seven fields the handler works with is the form's
    value (the default when absent or empty) without its leading and
    trailing whitespace. Validation sees those values: a name shorter than
    two characters once stripped is rejected whatever its raw length, and
    two forms that agree after stripping are answered alike. The row saved
    on a 200 answer holds the stripped strings, the amount being the number
    parsed from the stripped text (multiplied when the rule applies). *)
Theorem fields_are_stripped cfg rf w :
  (stripped_of (Py.or_else (form_get rf "name") "") (name (read_form rf)) /\
   stripped_of (Py.or_else (form_get rf "phone") "") (phone (read_form rf)) /\
   stripped_of (Py.or_else (form_get rf "email") "") (email (read_form rf)) /\
   stripped_of (Py.or_else (form_get rf "zipcode") "") (zipcode (read_form rf)) /\
   stripped_of (Py.or_else (form_get rf "bank") "") (bank (read_form rf)) /\
   stripped_of (Py.or_else (form_get rf "amount") "") (amount_raw (read_form rf)) /\
   stripped_of (Py.or_else (form_get rf "reopened") "0") (reopened (read_form rf))) /\
  ((String.length (name (read_form rf)) < 2)%nat ->
   submit cfg rf w = (Ok (bad_request "Name too short"), w)) /\
  (forall rf', read_form rf' = read_form rf -> submit cfg rf' w = submit cfg rf w) /\
  (forall answer w', submit cfg rf w = (Ok (Json answer, 200%nat), w') ->
   exists rows timestamp raw_amount amount_sent,
     Py.float_of_str (amount_raw (read_form rf)) = Some raw_amount /\
     (amount_sent = raw_amount \/
      Py.float_mul_int raw_amount (MULTIPLIER cfg) = Some amount_sent) /\
     store_rows cfg w'
     = Some (rows ++ [[CStr timestamp; CStr (name (read_form rf));
                       CStr (phone (read_form rf)); CStr (email (read_form rf));
                       CStr (zipcode (read_form rf)); CStr (bank (read_form rf));
                       CFloat amount_sent; CStr (reopened (read_form rf))]])).
Proof.
  split; [repeat split; apply strip_spec|]. split; [|split].
  - intros Hlen. apply submit_rejected. unfold basic_validation.
    apply Nat.ltb_lt in Hlen. rewrite Hlen, orb_true_r. reflexivity.
  - intros rf' Heq. unfold submit. rewrite Heq. reflexivity.
  - intros answer w' Hrun.
    destruct (submit_200 cfg rf w _ w' Hrun)
      as (raw & a & b & now & w1 & w2 & j & rows & Hv & Ha & _ & _ & _ & _ & Hrows & _).
    exists rows, (strftime_row now), raw, a. split; [|split; [|exact Hrows]].
    + pose proof (validation_refines (read_form rf)) as H.
      destruct (Contract.first_failure (read_form rf)).
      * destruct H as (H & _). congruence.
      * destruct H as (raw' & H & Hf). congruence.
    + apply amount_rule_result in Ha.
      destruct (String.eqb (reopened (read_form rf)) "1"); destruct Ha; auto.
Qed.

(** The example of C10: a name of " A " has raw length 3 and is rejected. *)
Example padded_short_name_rejected w :
  String.length " A " = 3%nat /\
  submit Example.cfg (Example.entry " A " "12.5" "0") w
  = (Ok (bad_request "Name too short"), w).
Proof. split; reflexivity. Qed.

(** ** The store across calls and requests *)

Lemma ensure_excel_establishes cfg w0 w :
  ensure_excel cfg w0 = (Ok (true, None), w) -> store_present cfg w.
Proof.
  intros H. pose proof (wp_run _ _ _ _ _ H (ensure_excel_post cfg w0)) as Hp.
  destruct Hp as (ok & err & Hok & _ & _ & Hrest).
  injection Hok as <- <-. apply Hrest.
Qed.

Lemma append_establishes cfg row w0 w :
  append_row_and_save cfg row w0 = (Ok (true, None), w) -> store_present cfg w.
Proof.
  intros H. pose proof (wp_run _ _ _ _ _ H (append_post cfg row w0)) as Hp.
  destruct Hp as (ok & err & Hok & _ & _ & Hrest).
  injection Hok as <- <-. apply Hrest.
Qed.

(** C7. [ensure_excel] is idempotent. When the store file exists (in an
    existing directory), or the world is the one a successful [ensure_excel]
    left, or the one a successful [append_row_and_save] left, a call of
    [ensure_excel] reports success and returns the very same world: the file
    system, hence the header row and every row after it, is untouched, and
    no library call is made. *)
Theorem ensure_excel_idempotent cfg w :
  (store_present cfg w
   \/ (exists w0, ensure_excel cfg w0 = (Ok (true, None), w))
   \/ (exists w0 row, append_row_and_save cfg row w0 = (Ok (true, None), w))) ->
  ensure_excel cfg w = (Ok (true, None), w).
Proof.
  intros [H|[(w0 & H)|(w0 & row & H)]]; apply ensure_excel_noop.
  - exact H.
  - eapply ensure_excel_establishes, H.
  - eapply append_establishes, H.
Qed.

Lemma ensure_excel_idempotent_witness :
  ensure_excel Example.cfg (snd (ensure_excel Example.cfg Example.empty_dir))
  = (Ok (true, None), snd (ensure_excel Example.cfg Example.empty_dir))
  /\ store_rows Example.cfg (snd (ensure_excel Example.cfg Example.empty_dir))
     = Some [headers].
Proof.
  split; [|vm_compute; reflexivity].
  apply (ensure_excel_idempotent Example.cfg
           (snd (ensure_excel Example.cfg Example.empty_dir))).
  right. left. exists Example.empty_dir. vm_compute. reflexivity.
Defined.

Lemma row_of_length rf row : row_of rf row -> List.length row = 8%nat.
Proof. intros (t & a & ->). reflexivity. Qed.

(** One successful submission appends one row, after the header row when
    there was no store. *)
Lemma submit_appends cfg rf w body w' :
  submit cfg rf w = (Ok (body, 200%nat), w') ->
  exists rows row, row_of rf row /\ store_rows cfg w' = Some (rows ++ [row]) /\
    (store_rows cfg w = Some rows \/ (fs w !! EXCEL_PATH cfg = None /\ rows = [headers])).
Proof.
  intros H. destruct (submit_200 cfg rf w body w' H)
    as (raw & a & b & now & w1 & w2 & j & rows & _ & _ & _ & _ & _ & _ & Hrows & Hold).
  exists rows, (submission_row (strftime_row now) (read_form rf) a).
  split; [exists (strftime_row now), a; reflexivity | auto].
Qed.

Lemma submissions_extend cfg w l w' :
  submissions cfg w l w' ->
  Forall (fun x => snd (snd x) = 200%nat) l ->
  forall rows0, store_rows cfg w = Some rows0 ->
  exists rows, store_rows cfg w' = Some (rows0 ++ rows) /\
               Forall2 (fun x row => row_of (fst x) row) l rows.
Proof.
  induction 1 as [w|w rf resp w1 rest w2 Hrun Hrest IH]; intros Hall rows0 Hstore.
  - exists []. rewrite app_nil_r. split; [exact Hstore | constructor].
  - inversion Hall as [|x l' Hx Hall']; subst. destruct resp as [body st].
    cbn in Hx. subst st.
    destruct (submit_appends cfg rf w body w1 Hrun) as (rows & row & Hrow & Hnew & Hold).
    destruct Hold as [Hold|[Hnone _]].
    + rewrite Hstore in Hold. injection Hold as <-.
      destruct (IH Hall' _ Hnew) as (more & Hfinal & Hmore).
      exists (row :: more). split.
      * rewrite Hfinal, <- app_assoc. reflexivity.
      * constructor; assumption.
    + unfold store_rows in Hstore. rewrite Hnone in Hstore. discriminate.
Qed.

(** C3. Start where [EXCEL_PATH] does not exist and let N >= 1 submissions
    follow one another, each answered 200. Then the store is a workbook of
    exactly N+1 rows: the fixed header row, then one row per submission in
    order, each of eight cells in the order of the header (timestamp, name,
    phone, email, zipcode, bank, amount sent, reopened flag). *)
Theorem store_rows_after_submissions cfg w l w' :
  fs w !! EXCEL_PATH cfg = None ->
  l <> [] ->
  submissions cfg w l w' ->
  Forall (fun x => snd (snd x) = 200%nat) l ->
  exists rows,
    store_rows cfg w' = Some (headers :: rows) /\
    headers = [CStr "TimestampUTC"; CStr "Name"; CStr "Phone"; CStr "Email";
               CStr "Zipcode"; CStr "Bank"; CStr "AmountSent"; CStr "ReopenedFlag"] /\
    List.length (headers :: rows) = S (List.length l) /\
    Forall2 (fun x row => row_of (fst x) row) l rows /\
    Forall (fun row => List.length row = 8%nat) (headers :: rows).
Proof.
  intros Habsent Hne Hrun Hall.
  destruct Hrun as [w|w rf resp w1 rest w2 Hfirst Hrest]; [contradiction|].
  inversion Hall as [|x l' Hx Hall']; subst. destruct resp as [body st].
  cbn in Hx. subst st.
  destruct (submit_appends cfg rf w body w1 Hfirst) as (rows & row & Hrow & Hnew & Hold).
  destruct Hold as [Hold|[_ ->]].
  { unfold store_rows in Hold. rewrite Habsent in Hold. discriminate. }
  destruct (submissions_extend cfg w1 rest w2 Hrest Hall' _ Hnew) as (more & Hfinal & Hmore).
  assert (Hrows : Forall2 (fun x r => row_of (fst x) r) ((rf, (body, 200%nat)) :: rest)
                          (row :: more)) by (constructor; assumption).
  exists (row :: more). split; [exact Hfinal|]. split; [reflexivity|]. split; [|split].
  - cbn [List.length]. f_equal. symmetry. exact (Forall2_length _ _ _ Hrows).
  - exact Hrows.
  - constructor; [reflexivity|].
    clear -Hrows. induction Hrows as [|x r l rs Hr _ IH]; constructor; [|exact IH].
    exact (row_of_length _ _ Hr).
Qed.

Lemma store_rows_after_submissions_witness :
  exists rows,
    store_rows Example.cfg
      (snd (submit Example.cfg (Example.entry "Bob" "3" "0")
              (snd (submit Example.cfg (Example.entry "Ann" "12.5" "1") Example.empty_dir))))
    = Some (headers :: rows) /\ List.length (headers :: rows) = 3%nat.
Proof.
  destruct (store_rows_after_submissions Example.cfg Example.empty_dir
              [(Example.entry "Ann" "12.5" "1",
                match fst (submit Example.cfg (Example.entry "Ann" "12.5" "1") Example.empty_dir) with
                | Ok resp => resp
                | Exc e => server_error e
                end);
               (Example.entry "Bob" "3" "0",
                match fst (submit Example.cfg (Example.entry "Bob" "3" "0")
                             (snd (submit Example.cfg (Example.entry "Ann" "12.5" "1")
                                     Example.empty_dir))) with
                | Ok resp => resp
                | Exc e => server_error e
                end)]
              (snd (submit Example.cfg (Example.entry "Bob" "3" "0")
                      (snd (submit Example.cfg (Example.entry "Ann" "12.5" "1")
                              Example.empty_dir)))))
    as (rows & Hrows & _ & Hlen & _).
  - vm_compute. reflexivity.
  - discriminate.
  - eapply submissions_cons; [vm_compute; reflexivity|].
    eapply submissions_cons; [vm_compute; reflexivity|].
    apply submissions_nil.
  - repeat constructor.
  - exists rows. split; [exact Hrows | exact Hlen].
Defined.

(** ** Download *)

Section Download.

Variable cfg : config.

(** With the default file name [download_excel] looks at [EXCEL_PATH]: it
    answers 404 when nothing is there, and sends the file when it is a
    regular file and reading it does not raise. *)
Lemma download_of_default_store w :
  EXCEL_FILE cfg = "submissions.xlsx" ->
  (fs w !! EXCEL_PATH cfg = None ->
   download_excel cfg w
   = (Ok (Json (jsonify [("error", JStr "File not found. Submit once to create it.")]),
          404%nat), w)) /\
  (forall c, fs w !! EXCEL_PATH cfg = Some (File c) ->
             raised_by (hd Returns (io w)) = None ->
             fst (download_excel cfg w) = Ok (Attachment "submissions.xlsx" c, 200%nat)).
Proof.
  intros Hname. unfold EXCEL_PATH. rewrite Hname. split.
  - intros Hnone. unfold download_excel, try_except, bind, path_exists.
    rewrite Hnone. reflexivity.
  - intros c Hfile Hio. unfold download_excel, try_except, bind, path_exists.
    rewrite Hfile. cbn [negb]. unfold send_from_directory, bind, fallible, bind, next_outcome.
    destruct w as [f s i k]. cbn in *. destruct i as [|[|e|e j] i]; cbn in *;
      try discriminate; rewrite Hfile; reflexivity.
Qed.

End Download.


(** C4 on a configuration that renames the store. The submission is
    answered 200 and its row is in [/app/data.xlsx], which [status] reports
    as existing; [download_excel] looks for [/app/submissions.xlsx] whatever
    [EXCEL_FILE] says, and answers 404, "Submit once to create it". *)
Theorem download_ignores_configured_store :
  EXCEL_PATH Renamed.cfg = "/app/data.xlsx"
  /\ fst (submit Renamed.cfg (Example.entry "Ann" "12.5" "0") Example.empty_dir)
     = Ok (success Renamed.cfg (read_form (Example.entry "Ann" "12.5" "0"))
             Example.twelve_and_half false true skipped_upload)
  /\ store_rows Renamed.cfg Renamed.after_one_submission
     = Some [headers;
             submission_row "1970-01-01 00:00:00"
               (read_form (Example.entry "Ann" "12.5" "0")) Example.twelve_and_half]
  /\ fst (status Renamed.cfg Renamed.after_one_submission)
     = Ok (Json (jsonify [("ok", JBool true);
                          ("excel_path", JStr "/app/data.xlsx");
                          ("file_exists", JBool true);
                          ("MULTIPLIER", JInt 100);
                          ("S3_BUCKET_configured", JBool false)]), 200%nat)
  /\ fst (download_excel Renamed.cfg Renamed.after_one_submission)
     = Ok (Json (jsonify [("error", JStr "File not found. Submit once to create it.")]),
           404%nat).
Proof. vm_compute. repeat split; reflexivity. Qed.

(** ** Further properties of the module *)

(** *** Paths *)

Lemma str_length_app a t :
  String.length (a ++ t)%string = (String.length a + String.length t)%nat.
Proof.
  induction a as [|c a IH]; [reflexivity|].
  change (S (String.length (a ++ t)%string) = S (String.length a + String.length t)).
  rewrite IH. reflexivity.
Qed.

Lemma str_app_assoc a b c : ((a ++ b) ++ c)%string = (a ++ (b ++ c))%string.
Proof.
  induction a as [|x a IH]; [reflexivity|].
  change (String x ((a ++ b) ++ c)%string = String x (a ++ (b ++ c))%string).
  rewrite IH. reflexivity.
Qed.

Lemma str_app_empty a : (a ++ "")%string = a.
Proof.
  induction a as [|x a IH]; [reflexivity|].
  change (String x (a ++ "")%string = String x a). rewrite IH. reflexivity.
Qed.

Lemma upto_last_slash_prefix p : exists t, p = (Py.upto_last_slash p ++ t)%string.
Proof.
  induction p as [|c p (t & Ht)]; [exists EmptyString; reflexivity|].
  cbn [Py.upto_last_slash]. destruct (Py.truthy (Py.upto_last_slash p)).
  - exists t. exact (f_equal (String c) Ht).
  - destruct (Ascii.eqb_spec c "/") as [->|_].
    + exists p. reflexivity.
    + exists (String c p). reflexivity.
Qed.

(** [os.path.dirname(p)] is a prefix of [p]. *)
Lemma dirname_prefix p : exists t, p = (Py.dirname p ++ t)%string.
Proof.
  unfold Py.dirname. destruct (upto_last_slash_prefix p) as (t & Ht).
  destruct (Py.truthy (Py.upto_last_slash p) && negb (Py.all_slashes (Py.upto_last_slash p))).
  - destruct (rstrip_by_spec (Ascii.eqb "/") (Py.upto_last_slash p)) as (r & Hr & _).
    exists (r ++ t)%string. rewrite <- str_app_assoc, <- Hr. exact Ht.
  - exists t. exact Ht.
Qed.

Lemma dirname_shorter p : Py.dirname p <> p -> (String.length (Py.dirname p) < String.length p)%nat.
Proof.
  intros Hne. destruct (dirname_prefix p) as (t & Ht).
  destruct t as [|c t].
  - rewrite str_app_empty in Ht. congruence.
  - rewrite Ht at 2. rewrite str_length_app. cbn. lia.
Qed.

Lemma dirname_length p : (String.length (Py.dirname p) <= String.length p)%nat.
Proof.
  destruct (dirname_prefix p) as (t & Ht). rewrite Ht at 2. rewrite str_length_app. lia.
Qed.

Lemma lineage_length n d x : In x (lineage n d) -> (String.length x <= String.length d)%nat.
Proof.
  revert d. induction n as [|n IH]; intros d; cbn [lineage]; [contradiction|].
  destruct (Py.truthy d); [|contradiction].
  intros [<-|Hin]; [lia|].
  destruct (String.eqb (Py.dirname d) d); [contradiction|].
  apply IH in Hin. pose proof (dirname_length d). lia.
Qed.

Lemma ensure_dir_effect path w r w' :
  ensure_dir_for_file path w = (r, w') ->
  s3_calls w' = s3_calls w /\ clock w' = clock w /\
  dirs_added (fs w) (fs w') /\
  (forall u, r = Ok u -> dir_present path (fs w')) /\
  (Py.dirname path <> path -> fs w' !! path = fs w !! path).
Proof.
  unfold ensure_dir_for_file. destruct (Py.truthy (Py.dirname path)) eqn:Hd.
  - unfold bind, path_exists. destruct (fs w !! Py.dirname path) eqn:Hl; cbn [negb].
    + intros [= <- <-].
      repeat split; auto using dirs_added_refl.
      intros _ _. right. rewrite Hl. eauto.
    + intros Hm. unfold makedirs in Hm.
      destruct (makedirs_along_run _ _ _ _ Hm) as (Hs & Hc & Hadd & Hkeep & Hhead).
      split; [exact Hs|]. split; [exact Hc|]. split; [exact Hadd|]. split.
      * intros u ->. right.
        apply (Hhead u (Py.dirname path)
                 (if String.eqb (Py.dirname (Py.dirname path)) (Py.dirname path) then []
                  else lineage (String.length (Py.dirname path))
                         (Py.dirname (Py.dirname path))) eq_refl).
        cbn [lineage]. rewrite Hd. reflexivity.
      * intros Hne. apply Hkeep. intros Hin.
        apply lineage_length in Hin. apply dirname_shorter in Hne. lia.
  - intros [= <- <-].
    repeat split; auto using dirs_added_refl.
    intros _ _. left. exact Hd.
Qed.

(** X1. What [ensure_dir_for_file] does to the world, whether it returns or
    raises: it makes no call to S3 and reads no clock; every path that
    existed keeps its node, and what is new is a directory (so a call that
    raises half-way leaves behind the directories it had made, and nothing
    else); when it returns, the parent directory of [path] exists (or
    [path] has no directory part); and unless [path] is its own [dirname]
    (the root, an empty path), nothing is created at [path] itself. *)
Theorem ensure_dir_for_file_effect path w r w' :
  ensure_dir_for_file path w = (r, w') ->
  s3_calls w' = s3_calls w /\ clock w' = clock w /\
  dirs_added (fs w) (fs w') /\
  (forall u, r = Ok u -> dir_present path (fs w')) /\
  (Py.dirname path <> path -> fs w' !! path = fs w !! path).
Proof.
  intros Hrun.
  destruct (ensure_dir_effect path w r w' Hrun) as (Hs & Hc & Hadd & Hok & Hkeep).
  repeat split; assumption.
Qed.

Lemma ensure_dir_for_file_effect_witness :
  dir_present "/app/out/data.xlsx"
    (fs (snd (ensure_dir_for_file "/app/out/data.xlsx" Example.empty_dir))).
Proof.
  destruct (ensure_dir_for_file_effect "/app/out/data.xlsx" Example.empty_dir (Ok tt)
              (snd (ensure_dir_for_file "/app/out/data.xlsx" Example.empty_dir)))
    as (_ & _ & _ & H & _).
  - vm_compute. reflexivity.
  - exact (H tt eq_refl).
Defined.

(** A call that raises at the second of two missing directories leaves the
    first behind. *)
Example makedirs_leaves_parents_behind :
  let e := raised "OSError" "No space left on device" in
  ensure_dir_for_file "out/deep/data.xlsx" (World ∅ [] [Returns; Raises e] [])
  = (Exc e, World {["out" := Dir]} [] [] []).
Proof. vm_compute. reflexivity. Qed.

(** *** [ensure_excel] *)

(** X2. [ensure_excel] never raises: it returns [(True, None)] or [(False,
    trace)]; it makes no call to S3 and reads no clock; and when it returns
    [True] something exists at [EXCEL_PATH], in an existing directory. *)
Theorem ensure_excel_reports cfg w :
  exists ok err w',
    ensure_excel cfg w = (Ok (ok, err), w') /\
    s3_calls w' = s3_calls w /\ clock w' = clock w /\
    (ok = true -> err = None /\ store_present cfg w') /\
    (ok = false -> exists tr, err = Some tr).
Proof.
  pose proof (ensure_excel_post cfg w) as H. unfold wp in H.
  destruct (ensure_excel cfg w) as [r w']. cbn in H.
  destruct H as (ok & err & -> & Hs & Hc & Hrest).
  exists ok, err, w'. split; [reflexivity|]. split; [exact Hs|]. split; [exact Hc|].
  destruct ok; split; intros; try discriminate; auto.
Qed.

(** What [ensure_excel] leaves at [EXCEL_PATH]. *)
Lemma ensure_excel_node cfg w :
  wp (ensure_excel cfg) w (fun r w' =>
    exists ok err, r = Ok (ok, err) /\
      match fs w !! EXCEL_PATH cfg with
      | Some n => fs w' !! EXCEL_PATH cfg = Some n
      | None =>
          (fs w' !! EXCEL_PATH cfg = None /\ ok = false)
          \/ fs w' !! EXCEL_PATH cfg = Some Dir
          \/ (fs w' !! EXCEL_PATH cfg = Some (File (Workbook [headers])) /\ ok = true)
          \/ (exists junk, fs w' !! EXCEL_PATH cfg = Some (File (Bytes junk)) /\ ok = false)
      end).
Proof.
  unfold ensure_excel. apply wp_try, wp_bind, wp_ensure_dir.
  - intros f1 r1 Hadd Hdir. apply wp_bind, wp_path_exists. cbn [fs world_with].
    destruct (f1 !! EXCEL_PATH cfg) as [n1|] eqn:Hp; cbn [negb]; apply wp_bind.
    + apply wp_ret, wp_ret. exists true, None. split; [reflexivity|]. cbn [fs world_with].
      destruct (Hadd (EXCEL_PATH cfg)) as [Heq|[Hn Hd]].
      * rewrite <- Heq, Hp. reflexivity.
      * rewrite Hn. right. left. exact Hd.
    + assert (Hw : fs w !! EXCEL_PATH cfg = None).
      { destruct (Hadd (EXCEL_PATH cfg)) as [Heq|[Hn _]]; congruence. }
      rewrite Hw. apply wp_bind, wp_ws_append.
      * intros r2. apply wp_wb_save.
        -- intros r3. apply wp_ret. exists true, None. split; [reflexivity|].
           cbn [fs world_with]. rewrite lookup_insert_eq. auto.
        -- intros e r3. apply wp_ret. exists false, (Some (trace e)). split; [reflexivity|].
           cbn [fs world_with]. auto.
        -- intros e junk r3. apply wp_ret. exists false, (Some (trace e)).
           split; [reflexivity|]. cbn [fs world_with]. rewrite lookup_insert_eq. eauto 6.
      * intros e r2. apply wp_ret. exists false, (Some (trace e)). split; [reflexivity|].
        cbn [fs world_with]. auto.
  - intros e f1 r1 Hadd. apply wp_ret. exists false, (Some (trace e)). split; [reflexivity|].
    cbn [fs world_with]. destruct (Hadd (EXCEL_PATH cfg)) as [Heq|[Hn Hd]].
    + rewrite Heq. destruct (fs w !! EXCEL_PATH cfg); auto.
    + rewrite Hn. auto.
Qed.

(** X3. [ensure_excel] never overwrites: whatever is at [EXCEL_PATH], a
    workbook with rows, a file that is not a workbook or a directory, is
    still there afterwards, whether the call reports success or not. *)
Theorem ensure_excel_never_overwrites cfg w n r w' :
  fs w !! EXCEL_PATH cfg = Some n ->
  ensure_excel cfg w = (r, w') ->
  fs w' !! EXCEL_PATH cfg = Some n.
Proof.
  intros Hn Hrun. pose proof (wp_run _ _ _ _ _ Hrun (ensure_excel_node cfg w)) as H.
  cbn in H. destruct H as (ok & err & _ & H). rewrite Hn in H. exact H.
Qed.


Lemma ensure_excel_never_overwrites_witness :
  fs (snd (ensure_excel Example.cfg
             (World {["/app/submissions.xlsx" := File (Bytes "not a workbook")]} [] [] [])))
  !! EXCEL_PATH Example.cfg
  = Some (File (Bytes "not a workbook")).
Proof.
  apply (ensure_excel_never_overwrites Example.cfg
           (World {["/app/submissions.xlsx" := File (Bytes "not a workbook")]} [] [] [])
           (File (Bytes "not a workbook"))
           (fst (ensure_excel Example.cfg
                   (World {["/app/submissions.xlsx" := File (Bytes "not a workbook")]} [] [] [])))).
  - vm_compute. reflexivity.
  - vm_compute. reflexivity.
Defined.

(** *** [append_row_and_save] *)

Lemma wp_ensure_excel_created cfg w (Q : result (bool * option string) -> world -> Prop) :
  dir_present (EXCEL_PATH cfg) (fs w) -> fs w !! EXCEL_PATH cfg = None ->
  (forall rest, Q (Ok (true, None))
     (world_with (<[EXCEL_PATH cfg := File (Workbook [headers])]> (fs w)) rest w)) ->
  (forall tr rest, Q (Ok (false, Some tr)) (world_with (fs w) rest w)) ->
  (forall tr junk rest, Q (Ok (false, Some tr))
     (world_with (<[EXCEL_PATH cfg := File (Bytes junk)]> (fs w)) rest w)) ->
  wp (ensure_excel cfg) w Q.
Proof.
  intros Hdir Hnone Hok Hfail Htorn. unfold ensure_excel.
  apply wp_try, wp_bind. unfold wp at 1. rewrite (ensure_dir_noop _ _ Hdir). simpl.
  apply wp_bind, wp_path_exists. rewrite Hnone. simpl.
  apply wp_bind, wp_bind, wp_ws_append.
  - intros r1. apply wp_wb_save.
    + intros r2. apply wp_ret, wp_ret, Hok.
    + intros e r2. apply wp_ret, Hfail.
    + intros e junk r2. apply wp_ret, Htorn.
  - intros e r1. apply wp_ret, Hfail.
Qed.

(** Load, append, save, where [n1] is at [EXCEL_PATH]. *)
Lemma append_tail_node cfg row w f1 r1 n1 :
  f1 !! EXCEL_PATH cfg = Some n1 ->
  wp (ws <- load_workbook (EXCEL_PATH cfg);;
      ws' <- ws_append ws row;;
      wb_save ws' (EXCEL_PATH cfg);;
      ret (true, @None string)) (world_with f1 r1 w)
     (fun r w' =>
        match r with
        | Ok a => a = (true, None) /\
                  exists rows, n1 = File (Workbook rows) /\
                    fs w' !! EXCEL_PATH cfg = Some (File (Workbook (rows ++ [row])))
        | Exc e => fs w' !! EXCEL_PATH cfg = Some n1
                   \/ exists rows junk, n1 = File (Workbook rows) /\
                        fs w' !! EXCEL_PATH cfg = Some (File (Bytes junk))
        end).
Proof.
  intros Hn. apply wp_bind, wp_load_workbook; [|intros; simpl; auto].
  intros rows r2 Hl. simpl in Hl. rewrite Hn in Hl. injection Hl as ->.
  apply wp_bind, wp_ws_append; [|intros; simpl; auto].
  intros r3. apply wp_bind, wp_wb_save.
  - intros r4. apply wp_ret. split; [reflexivity|]. exists rows. simpl.
    rewrite lookup_insert_eq. auto.
  - intros e r4. simpl. auto.
  - intros e junk r4. simpl. right. exists rows, junk. rewrite lookup_insert_eq. auto.
Qed.

(** Every call of [append_row_and_save] leaves [EXCEL_PATH] as the table
    [append_leaves] says. *)
Lemma append_node cfg row w :
  wp (append_row_and_save cfg row) w (fun r w' =>
    exists ok err, r = Ok (ok, err) /\ append_leaves cfg row w ok w').
Proof.
  unfold append_row_and_save, append_leaves, store_node.
  apply wp_try, wp_bind, wp_ensure_dir.
  - intros f1 r1 Hadd Hdir. apply wp_bind, wp_path_exists. simpl.
    destruct (f1 !! EXCEL_PATH cfg) as [n1|] eqn:Hp; simpl.
    + eapply wp_mono; [apply (append_tail_node cfg row w f1 r1 n1 Hp)|].
      intros [a|e] w'.
      * intros (-> & rows & -> & Hnew). exists true, None. split; [reflexivity|].
        destruct (Hadd (EXCEL_PATH cfg)) as [Heq|[Hn Hd]]; [|congruence].
        rewrite <- Heq, Hp. auto.
      * intros Hleft. apply wp_ret. exists false, (Some (trace e)). split; [reflexivity|].
        destruct (Hadd (EXCEL_PATH cfg)) as [Heq|[Hn Hd]].
        -- rewrite <- Heq, Hp. destruct Hleft as [Hsame|(rows & junk & -> & Hj)].
           ++ destruct n1 as [|[rows|raw]]; auto.
           ++ eauto 6.
        -- rewrite Hn. right. split; [reflexivity|].
           rewrite Hp in Hd. injection Hd as ->.
           destruct Hleft as [Hsame|(rows & junk & Hrows & _)]; [auto | discriminate].
    + assert (Hw : fs w !! EXCEL_PATH cfg = None).
      { destruct (Hadd (EXCEL_PATH cfg)) as [Heq|[Hn _]]; congruence. }
      rewrite Hw. apply wp_bind, wp_ensure_excel_created; [done | done | | |].
      * intros r2. simpl. eapply wp_mono.
        { apply (append_tail_node cfg row w _ r2 (File (Workbook [headers]))).
          apply lookup_insert_eq. }
        intros [a|e] w'.
        -- intros (-> & rows & [= <-] & Hnew). exists true, None. auto.
        -- intros Hleft. apply wp_ret. exists false, (Some (trace e)).
           split; [reflexivity|]. right. split; [reflexivity|].
           destruct Hleft as [Hsame|(rows & junk & _ & Hj)]; eauto 6.
      * intros tr r2. simpl. apply wp_ret. exists false, (Some tr).
        split; [reflexivity|]. simpl. auto.
      * intros tr junk r2. simpl. apply wp_ret. exists false, (Some tr).
        split; [reflexivity|]. simpl. rewrite lookup_insert_eq. eauto 8.
  - intros e f1 r1 Hadd. apply wp_ret. exists false, (Some (trace e)). split; [reflexivity|].
    simpl. destruct (Hadd (EXCEL_PATH cfg)) as [Heq|[Hn Hd]].
    + rewrite Heq. destruct (fs w !! EXCEL_PATH cfg) as [[|[rows|raw]]|]; auto.
    + rewrite Hn. auto.
Qed.

Lemma append_leaves_run cfg row w ok err w' :
  append_row_and_save cfg row w = (Ok (ok, err), w') -> append_leaves cfg row w ok w'.
Proof.
  intros H. pose proof (wp_run _ _ _ _ _ H (append_node cfg row w)) as Hp.
  cbn in Hp. destruct Hp as (ok' & err' & [= <- <-] & Hl). exact Hl.
Qed.


(** X5. [append_row_and_save] never raises: it returns [(True, None)] or
    [(False, trace)], and never both a success and a trace; it makes no
    call to S3 and reads no clock. *)
Theorem append_row_and_save_reports cfg row w :
  exists ok err w',
    append_row_and_save cfg row w = (Ok (ok, err), w') /\
    s3_calls w' = s3_calls w /\ clock w' = clock w /\
    (ok = true <-> err = None).
Proof.
  destruct (append_run cfg row w) as (ok & err & w' & Hrun & Hpost).
  destruct Hpost as (ok' & err' & [= <- <-] & Hs & Hc & Hrest).
  exists ok, err, w'. split; [exact Hrun|]. split; [exact Hs|]. split; [exact Hc|].
  destruct ok.
  - destruct Hrest as (-> & _). split; reflexivity.
  - destruct Hrest as (tr & ->). split; discriminate.
Qed.

(** X6. The store is append-only. When [EXCEL_PATH] holds a workbook, a
    call of [append_row_and_save] that reports success leaves the same rows
    with [row] added at the end; a call that reports failure leaves the rows
    exactly as they were, unless the write itself raised half-way and left
    junk in the file. No call drops, reorders or edits a row. *)
Theorem append_keeps_rows cfg row w rows r w' :
  store_rows cfg w = Some rows ->
  append_row_and_save cfg row w = (r, w') ->
  exists ok err, r = Ok (ok, err) /\
    ((ok = true /\ store_rows cfg w' = Some (rows ++ [row]))
     \/ (ok = false /\ store_rows cfg w' = Some rows)
     \/ (ok = false /\ exists junk, fs w' !! EXCEL_PATH cfg = Some (File (Bytes junk)))).
Proof.
  intros Hrows Hrun.
  destruct (append_run cfg row w) as (ok & err & w0 & Hrun0 & _).
  rewrite Hrun in Hrun0. injection Hrun0 as -> ->.
  exists ok, err. split; [reflexivity|].
  pose proof (append_leaves_run cfg row w ok err w0 Hrun) as Hl.
  unfold append_leaves, store_node in Hl. unfold store_rows in *.
  destruct (fs w !! EXCEL_PATH cfg) as [[|[rows0|raw]]|]; try discriminate.
  injection Hrows as ->.
  destruct Hl as [(-> & ->)|[(-> & ->)|(-> & junk & ->)]]; eauto 6.
Qed.

Lemma append_keeps_rows_witness :
  exists ok err,
    fst (append_row_and_save Example.cfg [CStr "second"]
           (snd (append_row_and_save Example.cfg [CStr "first"] Example.empty_dir)))
    = Ok (ok, err) /\ ok = true.
Proof.
  destruct (append_keeps_rows Example.cfg [CStr "second"]
              (snd (append_row_and_save Example.cfg [CStr "first"] Example.empty_dir))
              [headers; [CStr "first"]]
              (Ok (true, None))
              (snd (append_row_and_save Example.cfg [CStr "second"]
                      (snd (append_row_and_save Example.cfg [CStr "first"] Example.empty_dir)))))
    as (ok & err & Hr & Hcases).
  - vm_compute. reflexivity.
  - vm_compute. reflexivity.
  - exists ok, err. split; [vm_compute; exact Hr|]. congruence.
Defined.

(** X7. A store that is not a workbook is left alone. When [EXCEL_PATH] is
    a directory, or a file [load_workbook] cannot read, every call of
    [append_row_and_save] reports failure with a trace and leaves what was
    there: nothing is written over it. *)
Theorem append_refuses_foreign_store cfg row w n r w' :
  fs w !! EXCEL_PATH cfg = Some n ->
  (forall rows, n <> File (Workbook rows)) ->
  append_row_and_save cfg row w = (r, w') ->
  (exists tr, r = Ok (false, Some tr)) /\ fs w' !! EXCEL_PATH cfg = Some n.
Proof.
  intros Hn Hforeign Hrun.
  destruct (append_run cfg row w) as (ok & err & w0 & Hrun0 & Hpost).
  rewrite Hrun in Hrun0. injection Hrun0 as -> ->.
  pose proof (append_leaves_run cfg row w ok err w0 Hrun) as Hl.
  unfold append_leaves, store_node in Hl. rewrite Hn in Hl.
  destruct Hpost as (ok' & err' & [= <- <-] & _ & _ & Hrest).
  assert (Hfail : ok = false /\ fs w0 !! EXCEL_PATH cfg = Some n).
  { destruct n as [|[rows|raw]]; [exact Hl | exfalso; apply (Hforeign rows); reflexivity | exact Hl]. }
  destruct Hfail as (-> & Hsame). destruct Hrest as (tr & ->). eauto.
Qed.

Lemma append_refuses_foreign_store_witness :
  fs (snd (append_row_and_save Example.cfg [CStr "row"]
             (World {["/app" := Dir; "/app/submissions.xlsx" := File (Bytes "not a workbook")]}
                    [] [] [])))
  !! EXCEL_PATH Example.cfg
  = Some (File (Bytes "not a workbook")).
Proof.
  apply (append_refuses_foreign_store Example.cfg [CStr "row"]
           (World {["/app" := Dir; "/app/submissions.xlsx" := File (Bytes "not a workbook")]}
                  [] [] [])
           (File (Bytes "not a workbook"))
           (fst (append_row_and_save Example.cfg [CStr "row"]
                   (World {["/app" := Dir; "/app/submissions.xlsx" := File (Bytes "not a workbook")]}
                          [] [] [])))).
  - vm_compute. reflexivity.
  - intros rows. discriminate.
  - vm_compute. reflexivity.
Defined.

(** *** When nothing fails *)

Lemma next_outcome_calm w :
  calm w ->
  exists rest, next_outcome w = (Ok Returns, world_with (fs w) rest w)
               /\ Forall (fun o => o = Returns) rest.
Proof.
  unfold calm, next_outcome. destruct w as [f s i c]. simpl. intros H.
  destruct i as [|o rest].
  - exists []. split; [reflexivity | constructor].
  - inversion H as [|? ? Ho Hrest]; subst. exists rest. split; [reflexivity | exact Hrest].
Qed.

Lemma fallible_calm w :
  calm w ->
  exists rest, fallible w = (Ok tt, world_with (fs w) rest w)
               /\ Forall (fun o => o = Returns) rest.
Proof.
  intros H. destruct (next_outcome_calm w H) as (rest & Hn & Hrest).
  exists rest. unfold fallible, bind. rewrite Hn. split; [reflexivity | exact Hrest].
Qed.

Lemma ws_append_calm ws row w :
  calm w ->
  exists rest, ws_append ws row w = (Ok (ws ++ [row]), world_with (fs w) rest w)
               /\ Forall (fun o => o = Returns) rest.
Proof.
  intros H. destruct (fallible_calm w H) as (rest & Hf & Hrest).
  exists rest. unfold ws_append, bind. rewrite Hf. split; [reflexivity | exact Hrest].
Qed.

Lemma wb_save_calm wb p w :
  calm w ->
  exists rest, wb_save wb p w
               = (Ok tt, world_with (<[p := File (Workbook wb)]> (fs w)) rest w)
               /\ Forall (fun o => o = Returns) rest.
Proof.
  intros H. destruct (next_outcome_calm w H) as (rest & Hn & Hrest).
  exists rest. unfold wb_save, bind. rewrite Hn. split; [reflexivity | exact Hrest].
Qed.

Lemma load_workbook_calm p w rows :
  calm w -> fs w !! p = Some (File (Workbook rows)) ->
  exists rest, load_workbook p w = (Ok rows, world_with (fs w) rest w)
               /\ Forall (fun o => o = Returns) rest.
Proof.
  intros H Hp. destruct (fallible_calm w H) as (rest & Hf & Hrest).
  exists rest. unfold load_workbook, bind. rewrite Hf. simpl. rewrite Hp.
  split; [reflexivity | exact Hrest].
Qed.

Lemma mkdir_calm name w : calm w -> exists w', mkdir name w = (Ok tt, w') /\ calm w'.
Proof.
  intros H. destruct (fallible_calm w H) as (rest & Hf & Hrest).
  unfold mkdir, bind. rewrite Hf. eexists. split; [reflexivity | exact Hrest].
Qed.

(** Where no call fails, [os.makedirs] returns. *)
Lemma makedirs_along_calm l : forall w,
  calm w -> exists w', makedirs_along l w = (Ok tt, w') /\ calm w'.
Proof.
  induction l as [|name above IH]; intros w H.
  - exists w. split; [reflexivity | exact H].
  - cbn [makedirs_along]. unfold bind at 1.
    assert (Hparents : exists w1,
              match above with
              | [] => ret tt
              | head :: _ =>
                  bind (path_exists head)
                    (fun e => if negb e then makedirs_along above else ret tt)
              end w = (Ok tt, w1) /\ calm w1).
    { destruct above as [|head above'].
      - exists w. split; [reflexivity | exact H].
      - unfold bind, path_exists. destruct (fs w !! head); cbn [negb].
        + exists w. split; [reflexivity | exact H].
        + apply IH, H. }
    destruct Hparents as (w1 & -> & H1). apply mkdir_calm, H1.
Qed.

Lemma ensure_dir_calm path w :
  calm w ->
  exists f' rest,
    ensure_dir_for_file path w = (Ok tt, world_with f' rest w) /\
    Forall (fun o => o = Returns) rest /\
    dirs_added (fs w) f' /\ dir_present path f' /\
    (Py.dirname path <> path -> f' !! path = fs w !! path).
Proof.
  intros H. destruct (ensure_dir_for_file path w) as [r w'] eqn:Hrun.
  destruct (ensure_dir_effect path w r w' Hrun) as (Hs & Hc & Hadd & Hok & Hkeep).
  assert (Hr : r = Ok tt /\ Forall (fun o => o = Returns) (io w')).
  { revert Hrun. unfold ensure_dir_for_file.
    destruct (Py.truthy (Py.dirname path)); [|intros [= <- <-]; auto].
    unfold bind at 1, path_exists.
    destruct (fs w !! Py.dirname path); cbn [negb]; [intros [= <- <-]; auto|].
    unfold makedirs.
    destruct (makedirs_along_calm
                (lineage (S (String.length (Py.dirname path))) (Py.dirname path)) w H)
      as (w1 & -> & Hw1).
    intros [= <- <-]. auto. }
  destruct Hr as (-> & Hio). exists (fs w'), (io w'). split.
  - f_equal. destruct w, w'. simpl in *. congruence.
  - split; [exact Hio|]. split; [exact Hadd|]. split; [apply (Hok tt); reflexivity | exact Hkeep].
Qed.

Ltac run_calm H :=
  cbn [world_with fs s3_calls clock io] in H; rewrite H; cbn [world_with fs s3_calls clock io].

Lemma ensure_excel_calm cfg w :
  calm w -> fs w !! EXCEL_PATH cfg = None ->
  Py.dirname (EXCEL_PATH cfg) <> EXCEL_PATH cfg ->
  exists f' rest,
    ensure_excel cfg w
    = (Ok (true, None), world_with (<[EXCEL_PATH cfg := File (Workbook [headers])]> f') rest w) /\
    Forall (fun o => o = Returns) rest /\
    dirs_added (fs w) f' /\ dir_present (EXCEL_PATH cfg) f'.
Proof.
  intros Hcalm Hnone Hproper.
  destruct (ensure_dir_calm (EXCEL_PATH cfg) w Hcalm) as (f1 & r1 & Hdir & Hr1 & Hadd & Hpres & Hkeep).
  unfold ensure_excel, try_except, bind. run_calm Hdir.
  unfold path_exists. cbn [fs]. rewrite (Hkeep Hproper), Hnone. cbn [negb].
  destruct (ws_append_calm [] headers (world_with f1 r1 w) Hr1) as (r2 & Happ & Hr2).
  run_calm Happ.
  destruct (wb_save_calm ([] ++ [headers]) (EXCEL_PATH cfg) (world_with f1 r2 w) Hr2)
    as (r3 & Hsave & Hr3).
  run_calm Hsave.
  exists f1, r3. split; [reflexivity|]. auto.
Qed.

Lemma append_tail_calm cfg row w rows :
  calm w -> fs w !! EXCEL_PATH cfg = Some (File (Workbook rows)) ->
  exists rest,
    (ws <- load_workbook (EXCEL_PATH cfg);;
     ws' <- ws_append ws row;;
     wb_save ws' (EXCEL_PATH cfg);;
     ret (true, @None string)) w
    = (Ok (true, None),
       world_with (<[EXCEL_PATH cfg := File (Workbook (rows ++ [row]))]> (fs w)) rest w) /\
    Forall (fun o => o = Returns) rest.
Proof.
  intros Hcalm Hrows. unfold bind.
  destruct (load_workbook_calm _ w rows Hcalm Hrows) as (r1 & Hload & Hr1).
  run_calm Hload.
  destruct (ws_append_calm rows row (world_with (fs w) r1 w) Hr1) as (r2 & Happ & Hr2).
  run_calm Happ.
  destruct (wb_save_calm (rows ++ [row]) (EXCEL_PATH cfg) (world_with (fs w) r2 w) Hr2)
    as (r3 & Hsave & Hr3).
  run_calm Hsave. exists r3. split; [reflexivity | exact Hr3].
Qed.

Lemma append_calm cfg row w :
  calm w ->
  (exists rows, store_rows cfg w = Some rows)
  \/ (fs w !! EXCEL_PATH cfg = None /\ Py.dirname (EXCEL_PATH cfg) <> EXCEL_PATH cfg) ->
  exists w',
    append_row_and_save cfg row w = (Ok (true, None), w') /\
    calm w' /\ s3_calls w' = s3_calls w /\ clock w' = clock w /\
    store_rows cfg w'
    = Some (match store_rows cfg w with Some rows => rows | None => [headers] end ++ [row]).
Proof.
  intros Hcalm Hstore.
  destruct (ensure_dir_calm (EXCEL_PATH cfg) w Hcalm) as (f1 & r1 & Hdir & Hr1 & Hadd & Hpres & Hkeep).
  unfold append_row_and_save, try_except. unfold bind at 1. run_calm Hdir.
  unfold bind at 1, path_exists. cbn [fs].
  destruct Hstore as [(rows & Hrows)|(Hnone & Hproper)].
  - rewrite Hrows. unfold store_rows in Hrows.
    assert (Hf1 : f1 !! EXCEL_PATH cfg = Some (File (Workbook rows))).
    { destruct (Hadd (EXCEL_PATH cfg)) as [Heq|[Hn _]].
      - rewrite Heq. destruct (fs w !! EXCEL_PATH cfg) as [[|[rows0|raw]]|]; congruence.
      - rewrite Hn in Hrows. discriminate. }
    rewrite Hf1. cbn [negb].
    destruct (append_tail_calm cfg row (world_with f1 r1 w) rows Hr1 Hf1) as (r2 & Htail & Hr2).
    run_calm Htail.
    eexists. split; [reflexivity|]. split; [exact Hr2|]. split; [reflexivity|].
    split; [reflexivity|]. unfold store_rows. cbn [fs].
    rewrite lookup_insert_eq. reflexivity.
  - unfold store_rows at 2. rewrite Hnone. rewrite (Hkeep Hproper), Hnone. cbn [negb].
    unfold bind at 1.
    destruct (ensure_excel_calm cfg (world_with f1 r1 w) Hr1) as (f2 & r2 & Hens & Hr2 & Hadd2 & _).
    { cbn [fs world_with]. rewrite (Hkeep Hproper). exact Hnone. }
    { exact Hproper. }
    run_calm Hens. cbn [negb].
    destruct (append_tail_calm cfg row
                (world_with (<[EXCEL_PATH cfg := File (Workbook [headers])]> f2) r2 w)
                [headers] Hr2) as (r3 & Htail & Hr3).
    { cbn [fs world_with]. apply lookup_insert_eq. }
    run_calm Htail.
    eexists. split; [reflexivity|]. split; [exact Hr3|]. split; [reflexivity|].
    split; [reflexivity|]. unfold store_rows. cbn [fs].
    rewrite lookup_insert_eq. reflexivity.
Qed.

(** X8. Where no library call fails and nothing is at [EXCEL_PATH] (a path
    with a proper parent), [ensure_excel] reports success and leaves a
    workbook there whose only row is the header row; the parent directory
    exists afterwards, created if it was missing. *)
Theorem ensure_excel_creates_store cfg w :
  calm w ->
  fs w !! EXCEL_PATH cfg = None ->
  Py.dirname (EXCEL_PATH cfg) <> EXCEL_PATH cfg ->
  exists w',
    ensure_excel cfg w = (Ok (true, None), w') /\
    store_rows cfg w' = Some [headers] /\
    dir_present (EXCEL_PATH cfg) (fs w') /\
    calm w'.
Proof.
  intros Hcalm Hnone Hproper.
  destruct (ensure_excel_calm cfg w Hcalm Hnone Hproper) as (f' & rest & Hrun & Hrest & _ & Hdir).
  eexists. split; [exact Hrun|]. split; [|split].
  - unfold store_rows. cbn [fs world_with]. rewrite lookup_insert_eq. reflexivity.
  - cbn [fs world_with]. apply dir_present_insert, Hdir.
  - exact Hrest.
Qed.

Lemma ensure_excel_creates_store_witness :
  exists w',
    ensure_excel Renamed.cfg (World ∅ [] [Returns; Returns; Returns] []) = (Ok (true, None), w') /\
    store_rows Renamed.cfg w' = Some [headers] /\
    dir_present (EXCEL_PATH Renamed.cfg) (fs w') /\
    calm w'.
Proof.
  apply (ensure_excel_creates_store Renamed.cfg (World ∅ [] [Returns; Returns; Returns] [])).
  - repeat constructor.
  - vm_compute. reflexivity.
  - vm_compute. discriminate.
Defined.

(** X9. Where no library call fails, [append_row_and_save] succeeds: on a
    workbook it adds [row] after the rows it holds; where nothing is at
    [EXCEL_PATH] (a path with a proper parent) it first creates the
    workbook, so that the store is the header row followed by [row]. *)
Theorem append_row_and_save_succeeds cfg row w :
  calm w ->
  (exists rows, store_rows cfg w = Some rows)
  \/ (fs w !! EXCEL_PATH cfg = None /\ Py.dirname (EXCEL_PATH cfg) <> EXCEL_PATH cfg) ->
  exists w',
    append_row_and_save cfg row w = (Ok (true, None), w') /\
    calm w' /\
    store_rows cfg w'
    = Some (match store_rows cfg w with Some rows => rows | None => [headers] end ++ [row]).
Proof.
  intros Hcalm Hstore.
  destruct (append_calm cfg row w Hcalm Hstore) as (w' & Hrun & Hc & _ & _ & Hrows).
  exists w'. split; [exact Hrun|]. split; [exact Hc | exact Hrows].
Qed.

Lemma append_row_and_save_succeeds_witness :
  exists w',
    append_row_and_save Example.cfg [CStr "row"] Example.empty_dir = (Ok (true, None), w') /\
    calm w' /\
    store_rows Example.cfg w' = Some ([headers] ++ [[CStr "row"]]).
Proof.
  apply (append_row_and_save_succeeds Example.cfg [CStr "row"] Example.empty_dir).
  - constructor.
  - right. split; [vm_compute; reflexivity | vm_compute; discriminate].
Defined.

(** *** [upload_to_s3] *)



(** *** [submit] *)

Lemma rejection_shape f early :
  basic_validation f = inl early -> exists msg, early = bad_request msg.
Proof.
  pose proof (validation_refines f) as H.
  destruct (Contract.first_failure f) as [r|].
  - destruct H as (-> & _). intros [= <-]. eauto.
  - destruct H as (raw & -> & _). discriminate.
Qed.

(** X11. [submit] never raises, whatever the form and whatever the
    environment does. Its answer is a JSON object with status 200, 400 or
    500; the status is 400 exactly when validation fails; and the object's
    [success] member is true exactly when the status is 200. *)
Theorem submit_answers cfg rf w :
  exists j st w',
    submit cfg rf w = (Ok (Json j, st), w') /\
    (st = 200 \/ st = 400 \/ st = 500)%nat /\
    (st = 400%nat <-> exists early, basic_validation (read_form rf) = inl early) /\
    jget "success" j = Some (JBool (st =? 200)%nat).
Proof.
  destruct (submit_runs cfg rf w) as (resp & w' & Hrun & Hpath).
  destruct Hpath as [early Hv|raw e Hv Ha|raw a b now w1 tr w2 Hv Ha Hn Hs
                    |raw a b now w1 w2 r w3 Hv Ha Hn Hs Hsync].
  - destruct (rejection_shape _ _ Hv) as (msg & ->).
    eexists _, _, w. split; [exact Hrun|]. split; [auto|]. split; [|reflexivity].
    split; eauto.
  - eexists _, _, w. split; [exact Hrun|]. split; [auto|]. split; [|reflexivity].
    split; [discriminate|]. intros (early & He). congruence.
  - eexists _, _, w2. split; [exact Hrun|]. split; [auto|]. split; [|reflexivity].
    split; [discriminate|]. intros (early & He). congruence.
  - destruct r as [j|e]; eexists _, _, w3; (split; [exact Hrun|]);
      (split; [auto|]); (split; [|reflexivity]);
      (split; [discriminate|]); intros (early & He); congruence.
Qed.

(** X12. A multiplier too large for a float is a 500, not a crash and not
    a saved row: when validation passes, [reopened] is "1" and
    [float(MULTIPLIER)] overflows, the answer is 500 with the error "int too
    large to convert to float", and the world is untouched. *)
Theorem multiplier_overflow_is_500 cfg rf w raw_amount :
  basic_validation (read_form rf) = inr raw_amount ->
  reopened (read_form rf) = "1" ->
  Py.float_of_int (MULTIPLIER cfg) = None ->
  exists tr,
    submit cfg rf w
    = (Ok (Json (jsonify [("success", JBool false);
                          ("error", JStr "int too large to convert to float");
                          ("trace", JStr tr)]), 500%nat), w).
Proof.
  intros Hv Hre Hover. eexists.
  apply (submit_overflow cfg rf w raw_amount
           (raised "OverflowError" "int too large to convert to float")); [exact Hv|].
  unfold amount_rule, Py.float_mul_int. rewrite Hre, Hover. reflexivity.
Qed.

Lemma multiplier_overflow_is_500_witness :
  exists tr,
    submit (Config "submissions.xlsx" "/app" (2 ^ 1024) None None)
           (Example.entry "Ann" "12.5" "1") Example.empty_dir
    = (Ok (Json (jsonify [("success", JBool false);
                          ("error", JStr "int too large to convert to float");
                          ("trace", JStr tr)]), 500%nat), Example.empty_dir).
Proof.
  apply (multiplier_overflow_is_500 (Config "submissions.xlsx" "/app" (2 ^ 1024) None None)
           (Example.entry "Ann" "12.5" "1") Example.empty_dir Example.twelve_and_half).
  - vm_compute. reflexivity.
  - vm_compute. reflexivity.
  - vm_compute. reflexivity.
Defined.

(** X13. The row is saved before anything goes to S3: if a request made
    any call to boto3, then this request appended its row to the store,
    after the rows that were there (after the header row when there was no
    store), and that row is the last one when the request ends. A request
    that validation rejects, a request whose multiplier overflows and a
    request whose save fails make no call. *)
Theorem uploads_follow_saving cfg rf w resp w' :
  submit cfg rf w = (Ok resp, w') ->
  (s3_calls w' <> s3_calls w ->
   exists rows row,
     row_of rf row /\
     (store_rows cfg w = Some rows \/ (fs w !! EXCEL_PATH cfg = None /\ rows = [headers])) /\
     store_rows cfg w' = Some (rows ++ [row]))
  /\ (forall early, basic_validation (read_form rf) = inl early ->
      s3_calls w' = s3_calls w)
  /\ (forall raw_amount, basic_validation (read_form rf) = inr raw_amount ->
      reopened (read_form rf) = "1" -> Py.float_of_int (MULTIPLIER cfg) = None ->
      s3_calls w' = s3_calls w)
  /\ (forall err, resp = save_failed cfg err -> s3_calls w' = s3_calls w).
Proof.
  intros Hrun. split; [|split; [|split]].
  - intros Hcalls. apply submit_inv in Hrun.
    destruct Hrun as [early Hv|raw e Hv Ha|raw a b now w1 tr w2 Hv Ha Hn Hs
                     |raw a b now w1 w2 r w3 Hv Ha Hn Hs Hsync]; try contradiction.
    + exfalso. apply Hcalls.
      pose proof (wp_run _ _ _ _ _ Hs (append_post cfg _ w1)) as Hp.
      destruct Hp as (ok & err & _ & Hs3 & _). rewrite Hs3.
      destruct (utcnow_run w) as (now' & w1' & Hn' & _ & Hs1 & _).
      rewrite Hn in Hn'. injection Hn' as <- <-. exact Hs1.
    + pose proof (wp_run _ _ _ _ _ Hs (append_post cfg _ w1)) as Hp.
      destruct Hp as (ok & err & Hok & _ & _ & Hrest). injection Hok as <- <-.
      destruct Hrest as (_ & _ & rows & Hnew & Hold).
      destruct (utcnow_run w) as (now' & w1' & Hn' & Hfs1 & _).
      rewrite Hn in Hn'. injection Hn' as <- <-.
      exists rows, (submission_row (strftime_row now) (read_form rf) a). split; [|split].
      * exists (strftime_row now), a. reflexivity.
      * unfold store_rows in *. rewrite Hfs1 in Hold. exact Hold.
      * unfold store_rows. rewrite (sync_step_fs cfg _ _ _ Hsync). exact Hnew.
  - intros early Hv. rewrite (submit_rejected cfg rf w early Hv) in Hrun.
    injection Hrun as _ <-. reflexivity.
  - intros raw Hv Hre Hover.
    rewrite (submit_overflow cfg rf w raw
               (raised "OverflowError" "int too large to convert to float") Hv) in Hrun.
    + injection Hrun as _ <-. reflexivity.
    + unfold amount_rule, Py.float_mul_int. rewrite Hre, Hover. reflexivity.
  - intros err ->. apply submit_inv in Hrun.
    destruct (utcnow_run w) as (now' & w1' & Hn' & _ & Hs1 & _).
    inversion Hrun as [early Hv Hresp|raw e Hv Ha Hresp|raw a b now w1 tr w2 Hv Ha Hn Hs Hresp
                      |raw a b now w1 w2 r w3 Hv Ha Hn Hs Hsync Hresp]; subst; try reflexivity.
    + pose proof (wp_run _ _ _ _ _ Hs (append_post cfg _ w1)) as Hp.
      destruct Hp as (ok & err' & _ & Hs3 & _). rewrite Hs3.
      rewrite Hn in Hn'. injection Hn' as <- <-. exact Hs1.
    + destruct r as [j|e]; discriminate.
Qed.

Lemma uploads_follow_saving_witness :
  exists rows row,
    row_of (Example.entry "Ann" "12.5" "0") row /\
    (store_rows Failing.with_bucket Example.empty_dir = Some rows
     \/ (fs Example.empty_dir !! EXCEL_PATH Failing.with_bucket = None /\ rows = [headers])) /\
    store_rows Failing.with_bucket
      (snd (submit Failing.with_bucket (Example.entry "Ann" "12.5" "0") Example.empty_dir))
    = Some (rows ++ [row]).
Proof.
  destruct (uploads_follow_saving Failing.with_bucket (Example.entry "Ann" "12.5" "0")
              Example.empty_dir
              (success Failing.with_bucket (read_form (Example.entry "Ann" "12.5" "0"))
                 Example.twelve_and_half false true
                 (JObj [("ok", JBool true);
                        ("key", JStr "submissions/19700101T000000Z_submissions.xlsx");
                        ("bucket", JStr "bucket")]))
              (snd (submit Failing.with_bucket (Example.entry "Ann" "12.5" "0")
                      Example.empty_dir)))
    as (H & _).
  - vm_compute. reflexivity.
  - apply H. vm_compute. discriminate.
Defined.

(** One request and the store: a workbook keeps its rows, gains one at the
    end, or is left as junk by a torn write; anything else that is at
    [EXCEL_PATH] stays. *)
Lemma submit_store_step cfg rf w resp w' :
  submit cfg rf w = (Ok resp, w') ->
  match store_node cfg w with
  | Some (File (Workbook rows)) =>
      store_node cfg w' = Some (File (Workbook rows))
      \/ (exists row, store_node cfg w' = Some (File (Workbook (rows ++ [row]))))
      \/ (exists junk, store_node cfg w' = Some (File (Bytes junk)))
  | Some n => store_node cfg w' = Some n
  | None => True
  end.
Proof.
  intros Hrun. apply submit_inv in Hrun.
  assert (Hsame : match store_node cfg w with
                  | Some (File (Workbook rows)) =>
                      store_node cfg w = Some (File (Workbook rows))
                      \/ (exists row, store_node cfg w = Some (File (Workbook (rows ++ [row]))))
                      \/ (exists junk, store_node cfg w = Some (File (Bytes junk)))
                  | Some n => store_node cfg w = Some n
                  | None => True
                  end).
  { destruct (store_node cfg w) as [[|[rows|raw]]|]; auto. }
  assert (Hstep : forall row w1 ok err w2 w3,
             fs w1 = fs w ->
             append_row_and_save cfg row w1 = (Ok (ok, err), w2) ->
             fs w3 = fs w2 ->
             match store_node cfg w with
             | Some (File (Workbook rows)) =>
                 store_node cfg w3 = Some (File (Workbook rows))
                 \/ (exists row, store_node cfg w3 = Some (File (Workbook (rows ++ [row]))))
                 \/ (exists junk, store_node cfg w3 = Some (File (Bytes junk)))
             | Some n => store_node cfg w3 = Some n
             | None => True
             end).
  { intros row w1 ok err w2 w3 H1 Happ H3.
    pose proof (append_leaves_run cfg row w1 ok err w2 Happ) as Hl.
    unfold append_leaves, store_node in *. rewrite H3. rewrite H1 in Hl.
    destruct (fs w !! EXCEL_PATH cfg) as [[|[rows|raw]]|]; try tauto.
    destruct Hl as [(_ & ->)|[(_ & ->)|(_ & junk & ->)]]; eauto. }
  destruct Hrun as [early Hv|raw e Hv Ha|raw a b now w1 tr w2 Hv Ha Hn Hs
                   |raw a b now w1 w2 r w3 Hv Ha Hn Hs Hsync]; try exact Hsame.
  - destruct (utcnow_run w) as (now' & w1' & Hn' & Hfs & _).
    rewrite Hn in Hn'. injection Hn' as <- <-.
    exact (Hstep _ w1 _ _ w2 w2 Hfs Hs eq_refl).
  - destruct (utcnow_run w) as (now' & w1' & Hn' & Hfs & _).
    rewrite Hn in Hn'. injection Hn' as <- <-.
    exact (Hstep _ w1 _ _ w2 w3 Hfs Hs (sync_step_fs cfg _ _ _ Hsync)).
Qed.

Lemma submissions_grow cfg w l w' :
  submissions cfg w l w' ->
  (forall junk, store_node cfg w = Some (File (Bytes junk)) ->
                exists junk', store_node cfg w' = Some (File (Bytes junk'))) /\
  (forall rows, store_rows cfg w = Some rows ->
     (exists more, store_rows cfg w' = Some (rows ++ more)
                   /\ (List.length more <= List.length l)%nat)
     \/ (exists junk, store_node cfg w' = Some (File (Bytes junk)))).
Proof.
  induction 1 as [w|w rf resp w1 rest w2 Hrun Hrest [IHjunk IHrows]].
  - split; [eauto|]. intros rows Hrows. left. exists []. rewrite app_nil_r. auto.
  - pose proof (submit_store_step cfg rf w resp w1 Hrun) as Hstep. split.
    + intros junk Hj. rewrite Hj in Hstep. eauto.
    + intros rows Hrows. unfold store_rows, store_node in *.
      destruct (fs w !! EXCEL_PATH cfg) as [[|[rows0|raw]]|]; try discriminate.
      injection Hrows as ->.
      destruct Hstep as [Hs|[(row & Hs)|(junk & Hs)]].
      * destruct (IHrows rows) as [(more & Hm & Hlen)|Hj]; [rewrite Hs; reflexivity| |auto].
        left. exists more. split; [exact Hm | cbn; lia].
      * destruct (IHrows (rows ++ [row])) as [(more & Hm & Hlen)|Hj];
          [rewrite Hs; reflexivity| |auto].
        left. exists (row :: more). split; [rewrite Hm, <- app_assoc; reflexivity | cbn; lia].
      * right. apply (IHjunk junk Hs).
Qed.

(** X14. Across any run of requests to [/submit], accepted, rejected or
    failed, the store only grows at its end: if it was a workbook before the
    run and is one after it, the rows it had are still its first rows, in
    order and unchanged, followed by at most one new row per request. *)
Theorem store_only_grows cfg w l w' rows rows' :
  submissions cfg w l w' ->
  store_rows cfg w = Some rows ->
  store_rows cfg w' = Some rows' ->
  exists more, rows' = rows ++ more /\ (List.length more <= List.length l)%nat.
Proof.
  intros Hrun Hrows Hrows'.
  destruct (submissions_grow cfg w l w' Hrun) as [_ Hgrow].
  destruct (Hgrow rows Hrows) as [(more & Hm & Hlen)|(junk & Hj)].
  - exists more. split; [congruence | exact Hlen].
  - unfold store_rows, store_node in *. rewrite Hj in Hrows'. discriminate.
Qed.

Lemma store_only_grows_witness :
  exists more,
    [headers; [CStr "kept"]; submission_row "1970-01-01 00:00:00"
                               (read_form (Example.entry "Ann" "12.5" "0"))
                               Example.twelve_and_half]
    = [headers; [CStr "kept"]] ++ more /\ (List.length more <= 2)%nat.
Proof.
  apply (store_only_grows Example.cfg
           (World {["/app" := Dir;
                    "/app/submissions.xlsx" := File (Workbook [headers; [CStr "kept"]])]}
                  [] [] [])
           [(Example.entry "A" "12.5" "0", bad_request "Name too short");
            (Example.entry "Ann" "12.5" "0",
             success Example.cfg (read_form (Example.entry "Ann" "12.5" "0"))
               Example.twelve_and_half false true skipped_upload)]
           (snd (submit Example.cfg (Example.entry "Ann" "12.5" "0")
                   (World {["/app" := Dir;
                            "/app/submissions.xlsx" := File (Workbook [headers; [CStr "kept"]])]}
                          [] [] [])))).
  - eapply submissions_cons; [vm_compute; reflexivity|].
    eapply submissions_cons; [vm_compute; reflexivity|].
    apply submissions_nil.
  - vm_compute. reflexivity.
  - vm_compute. reflexivity.
Defined.

Lemma calm_no_s3_error w : calm w -> s3_raises (io w) = None.
Proof.
  unfold calm. destruct (io w) as [|o1 [|o2 rest]]; intros H; [reflexivity| |].
  - inversion H as [|? ? -> _]. reflexivity.
  - inversion H as [|? ? -> H2]. inversion H2 as [|? ? -> _]. reflexivity.
Qed.

(** X15. A valid submission goes through when nothing fails. If validation
    passes, the amount rule gives [amount_sent], no library call raises, and
    [EXCEL_PATH] is a workbook or is absent (with a proper parent), then the
    answer is the 200 object with [file_exists] true, the row of the request
    is the last row of the store after the rows that were there (after the
    header row if there was no store), and [s3_upload] says [ok] true when a
    bucket is configured and is the "skipped" object when none is. *)
Theorem valid_submission_succeeds cfg rf w raw_amount amount_sent multiplied_flag :
  basic_validation (read_form rf) = inr raw_amount ->
  amount_rule cfg (reopened (read_form rf)) raw_amount w
    = (Ok (amount_sent, multiplied_flag), w) ->
  calm w ->
  (exists rows, store_rows cfg w = Some rows)
  \/ (fs w !! EXCEL_PATH cfg = None /\ Py.dirname (EXCEL_PATH cfg) <> EXCEL_PATH cfg) ->
  exists timestamp s3_result w',
    submit cfg rf w
    = (Ok (success cfg (read_form rf) amount_sent multiplied_flag true s3_result), w') /\
    store_rows cfg w'
    = Some (match store_rows cfg w with Some rows => rows | None => [headers] end
            ++ [submission_row timestamp (read_form rf) amount_sent]) /\
    (configured (S3_BUCKET cfg) = true -> jget "ok" s3_result = Some (JBool true)) /\
    (configured (S3_BUCKET cfg) = false -> s3_result = skipped_upload).
Proof.
  intros Hv Ha Hcalm Hstore.
  destruct (utcnow_run w) as (now & w1 & Hn & Hfs1 & _ & Hio1).
  assert (Hcalm1 : calm w1) by (unfold calm; rewrite Hio1; exact Hcalm).
  assert (Hrows1 : store_rows cfg w1 = store_rows cfg w) by (unfold store_rows; rewrite Hfs1; reflexivity).
  destruct (append_calm cfg (submission_row (strftime_row now) (read_form rf) amount_sent) w1 Hcalm1)
    as (w2 & Happ & Hcalm2 & _ & _ & Hrows2).
  { unfold store_rows in *. rewrite Hfs1. exact Hstore. }
  rewrite Hrows1 in Hrows2.
  rewrite (submit_saved cfg rf w raw_amount amount_sent multiplied_flag now w1 None w2 Hv Ha Hn Happ).
  assert (Hex : store_exists cfg w2 = true).
  { unfold store_exists. unfold store_rows in Hrows2.
    destruct (fs w2 !! EXCEL_PATH cfg); [reflexivity | discriminate]. }
  rewrite Hex. unfold sync_step. destruct (configured (S3_BUCKET cfg)) eqn:Hb.
  - destruct (upload_to_s3_run cfg (EXCEL_PATH cfg) (S3_BUCKET cfg) w2 Hb) as (key & w3 & Hfs3 & ->).
    rewrite (calm_no_s3_error w2 Hcalm2).
    exists (strftime_row now). eexists _, w3. split; [reflexivity|]. split; [|split].
    + unfold store_rows in *. rewrite Hfs3. exact Hrows2.
    + intros _. reflexivity.
    + discriminate.
  - exists (strftime_row now), skipped_upload, w2. split; [reflexivity|]. split; [exact Hrows2|].
    split; [discriminate | reflexivity].
Qed.

Lemma valid_submission_succeeds_witness :
  exists timestamp s3_result w',
    submit Failing.with_bucket (Example.entry "Ann" "12.5" "1") (World ∅ [] [] [])
    = (Ok (success Failing.with_bucket (read_form (Example.entry "Ann" "12.5" "1"))
             Example.twelve_fifty true true s3_result), w') /\
    store_rows Failing.with_bucket w'
    = Some (match store_rows Failing.with_bucket (World ∅ [] [] []) with
            | Some rows => rows
            | None => [headers]
            end ++ [submission_row timestamp (read_form (Example.entry "Ann" "12.5" "1"))
                      Example.twelve_fifty]) /\
    (configured (S3_BUCKET Failing.with_bucket) = true -> jget "ok" s3_result = Some (JBool true)) /\
    (configured (S3_BUCKET Failing.with_bucket) = false -> s3_result = skipped_upload).
Proof.
  apply (valid_submission_succeeds Failing.with_bucket (Example.entry "Ann" "12.5" "1")
           (World ∅ [] [] []) Example.twelve_and_half Example.twelve_fifty true).
  - vm_compute. reflexivity.
  - vm_compute. reflexivity.
  - constructor.
  - right. split; [vm_compute; reflexivity | vm_compute; discriminate].
Defined.

(** *** [status] and [download_excel] *)

(** X16. [status] agrees with [submit]: right after a submission answered
    200, [status] answers 200 with [file_exists] true for the same
    [EXCEL_PATH], and it changes nothing in the world. *)
Theorem status_after_success cfg rf w body w' :
  submit cfg rf w = (Ok (body, 200%nat), w') ->
  status cfg w'
  = (Ok (Json (jsonify [("ok", JBool true);
                        ("excel_path", JStr (EXCEL_PATH cfg));
                        ("file_exists", JBool true);
                        ("MULTIPLIER", JInt (MULTIPLIER cfg));
                        ("S3_BUCKET_configured", JBool (configured (S3_BUCKET cfg)))]),
         200%nat), w').
Proof.
  intros Hrun.
  destruct (submit_200 cfg rf w body w' Hrun)
    as (raw & a & b & now & w1 & w2 & j & rows & _ & _ & _ & _ & _ & _ & Hrows & _).
  unfold status, bind, path_exists. unfold store_rows in Hrows.
  destruct (fs w' !! EXCEL_PATH cfg); [reflexivity | discriminate].
Qed.

Lemma status_after_success_witness :
  fst (status Renamed.cfg Renamed.after_one_submission)
  = Ok (Json (jsonify [("ok", JBool true);
                       ("excel_path", JStr (EXCEL_PATH Renamed.cfg));
                       ("file_exists", JBool true);
                       ("MULTIPLIER", JInt (MULTIPLIER Renamed.cfg));
                       ("S3_BUCKET_configured", JBool (configured (S3_BUCKET Renamed.cfg)))]),
        200%nat).
Proof.
  rewrite (status_after_success Renamed.cfg (Example.entry "Ann" "12.5" "0") Example.empty_dir
             (fst (success Renamed.cfg (read_form (Example.entry "Ann" "12.5" "0"))
                     Example.twelve_and_half false true skipped_upload))
             Renamed.after_one_submission).
  - reflexivity.
  - vm_compute. reflexivity.
Defined.


(** X18. With the default file name, [/download] serves what [/submit]
    wrote: after a submission answered 200, if reading the file does not
    raise, the attachment is the workbook whose last row is the row of that
    submission. *)
Theorem download_after_submit cfg rf w body w1 :
  EXCEL_FILE cfg = "submissions.xlsx" ->
  submit cfg rf w = (Ok (body, 200%nat), w1) ->
  raised_by (hd Returns (io w1)) = None ->
  exists rows row,
    row_of rf row /\
    fst (download_excel cfg w1)
    = Ok (Attachment "submissions.xlsx" (Workbook (rows ++ [row])), 200%nat).
Proof.
  intros Hname Hrun Hio.
  destruct (submit_appends cfg rf w body w1 Hrun) as (rows & row & Hrow & Hnew & _).
  exists rows, row. split; [exact Hrow|].
  destruct (download_of_default_store cfg w1 Hname) as [_ Hsend].
  apply Hsend; [|exact Hio].
  unfold store_rows in Hnew.
  destruct (fs w1 !! EXCEL_PATH cfg) as [[|[rows0|raw]]|]; try discriminate.
  congruence.
Qed.

Lemma download_after_submit_witness :
  exists rows row,
    row_of (Example.entry "Ann" "12.5" "0") row /\
    fst (download_excel Example.cfg
           (snd (submit Example.cfg (Example.entry "Ann" "12.5" "0") Example.empty_dir)))
    = Ok (Attachment "submissions.xlsx" (Workbook (rows ++ [row])), 200%nat).
Proof.
  apply (download_after_submit Example.cfg (Example.entry "Ann" "12.5" "0") Example.empty_dir
           (fst (success Example.cfg (read_form (Example.entry "Ann" "12.5" "0"))
                   Example.twelve_and_half false true skipped_upload))).
  - reflexivity.
  - vm_compute. reflexivity.
  - vm_compute. reflexivity.
Defined.

(** *** Blank fields *)

Lemma lstrip_all_space s : all_chars Py.isspace s = true -> Py.lstrip_by Py.isspace s = "".
Proof.
  induction s as [|c s IH]; [reflexivity|]. cbn [all_chars Py.lstrip_by].
  intros H. apply andb_true_iff in H as [Hc Hs]. rewrite Hc. exact (IH Hs).
Qed.

Lemma strip_all_space s : all_chars Py.isspace s = true -> Py.strip s = "".
Proof. intros H. unfold Py.strip. rewrite (lstrip_all_space s H). reflexivity. Qed.

(** X19. A required field that is missing, empty or made of whitespace
    only is a 400. For each of name, phone, email, zipcode, bank and amount:
    if the form has no such field, or its value is all whitespace, the
    request is rejected with status 400 and changes nothing. *)
Theorem blank_field_is_rejected cfg rf w key :
  In key ["name"; "phone"; "email"; "zipcode"; "bank"; "amount"] ->
  all_chars Py.isspace (Py.or_else (form_get rf key) "") = true ->
  exists msg, submit cfg rf w = (Ok (bad_request msg), w).
Proof.
  intros Hkey Hblank. apply strip_all_space in Hblank.
  pose proof (validation_refines (read_form rf)) as Href.
  destruct (Contract.first_failure (read_form rf)) as [r|] eqn:Hfirst.
  - destruct Href as (Hv & _). exists (Contract.error r). apply submit_rejected, Hv.
  - exfalso. unfold Contract.first_failure in Hfirst.
    assert (Hall : forall r, In r Contract.rules -> Contract.holds r (read_form rf) = true).
    { intros r Hr. pose proof (find_none _ _ Hfirst r Hr) as Hn.
      apply negb_false_iff in Hn. exact Hn. }
    cbn [In] in Hkey.
    repeat (destruct Hkey as [<-|Hkey]; [|]); try contradiction.
    + pose proof (Hall _ (or_introl eq_refl)) as H. cbn in H.
      unfold read_form in H. cbn [name] in H. rewrite Hblank in H. discriminate.
    + pose proof (Hall _ (or_intror (or_introl eq_refl))) as H. cbn in H.
      unfold read_form in H. cbn [phone] in H. rewrite Hblank in H. discriminate.
    + pose proof (Hall _ (or_intror (or_intror (or_introl eq_refl)))) as H. cbn in H.
      unfold read_form in H. cbn [email] in H. rewrite Hblank in H. discriminate.
    + pose proof (Hall _ (or_intror (or_intror (or_intror (or_introl eq_refl))))) as H.
      cbn in H. unfold read_form in H. cbn [zipcode] in H. rewrite Hblank in H. discriminate.
    + pose proof (Hall _ (or_intror (or_intror (or_intror (or_intror (or_introl eq_refl))))))
        as H. cbn in H. unfold read_form in H. cbn [bank] in H. rewrite Hblank in H.
      discriminate.
    + pose proof (Hall _ (or_intror (or_intror (or_intror (or_intror
                            (or_intror (or_introl eq_refl))))))) as H.
      cbn in H. unfold read_form in H. cbn [amount_raw] in H. rewrite Hblank in H.
      discriminate.
Qed.

Lemma blank_field_is_rejected_witness :
  exists msg,
    submit Example.cfg [("name", "Ann"); ("phone", "   "); ("amount", "1")] Example.empty_dir
    = (Ok (bad_request msg), Example.empty_dir).
Proof.
  apply (blank_field_is_rejected Example.cfg
           [("name", "Ann"); ("phone", "   "); ("amount", "1")] Example.empty_dir "phone").
  - right. left. reflexivity.
  - reflexivity.
Defined.

(** X20. A reopened value made of whitespace only is not defaulted: the
    default "0" replaces a missing or empty value before stripping, so such
    a value is read as the empty string. On a 200 answer the amount is then
    not multiplied, [reopened_received] is the empty string, and so is the
    reopened cell of the saved row. *)
Theorem blank_reopened_is_empty cfg rf w v raw_amount answer w' :
  form_get rf "reopened" = Some v ->
  v <> "" ->
  all_chars Py.isspace v = true ->
  basic_validation (read_form rf) = inr raw_amount ->
  submit cfg rf w = (Ok (Json answer, 200%nat), w') ->
  jget "reopened_received" answer = Some (JStr "") /\
  jget "multiplied" answer = Some (JBool false) /\
  jget "amount_sent" answer = Some (JFloat raw_amount) /\
  exists rows timestamp,
    store_rows cfg w'
    = Some (rows ++ [[CStr timestamp; CStr (name (read_form rf)); CStr (phone (read_form rf));
                      CStr (email (read_form rf)); CStr (zipcode (read_form rf));
                      CStr (bank (read_form rf)); CFloat raw_amount; CStr ""]]).
Proof.
  intros Hget Hne Hblank Hv Hrun.
  assert (Hre : reopened (read_form rf) = "").
  { unfold read_form. cbn [reopened]. rewrite Hget. unfold Py.or_else.
    destruct v as [|c v]; [contradiction|]. cbn [Py.truthy].
    apply strip_all_space, Hblank. }
  destruct (submit_200 cfg rf w _ w' Hrun)
    as (raw & a & b & now & w1 & w2 & j & rows & Hv' & Ha & _ & _ & _ & Hbody & Hrows & _).
  rewrite Hv in Hv'. injection Hv' as <-. injection Hbody as ->.
  apply amount_rule_result in Ha. rewrite Hre in Ha. cbn in Ha. destruct Ha as [-> ->].
  change (Py.strip (Py.or_else (form_get rf "reopened") "0")) with (reopened (read_form rf)).
  rewrite Hre. repeat split.
  exists rows, (strftime_row now). rewrite Hrows. unfold submission_row. rewrite Hre.
  reflexivity.
Qed.

Lemma blank_reopened_is_empty_witness :
  jget "reopened_received"
       (JObj [("success", JBool true);
              ("amount_sent", JFloat Example.twelve_and_half);
              ("reopened_received", JStr "");
              ("multiplied", JBool false);
              ("file_exists", JBool true);
              ("file_path", JStr "/app/submissions.xlsx");
              ("s3_upload", skipped_upload)])
  = Some (JStr "").
Proof.
  apply (blank_reopened_is_empty Example.cfg (Example.entry "Ann" "12.5" "  ") Example.empty_dir
           "  " Example.twelve_and_half _
           (snd (submit Example.cfg (Example.entry "Ann" "12.5" "  ") Example.empty_dir))).
  - reflexivity.
  - discriminate.
  - reflexivity.
  - vm_compute. reflexivity.
  - vm_compute. reflexivity.
Defined.

(** X21. Validation puts no condition on the amount beyond [float]
    accepting it: if a submission passes, the same fields with any other
    amount text that [float] accepts pass as well, with that number as the
    amount. Zero, negative numbers, infinities and NaN are all let through. *)
Theorem amount_is_not_range_checked f raw_amount text x :
  basic_validation f = inr raw_amount ->
  Py.float_of_str text = Some x ->
  basic_validation (Fields (name f) (phone f) (email f) (zipcode f) (bank f) text (reopened f))
  = inr x.
Proof.
  unfold basic_validation. cbn [name phone email zipcode bank amount_raw].
  intros Hv Hx.
  destruct (negb (Py.truthy (name f)) || (String.length (name f) <? 2)%nat); [discriminate|].
  destruct (negb (Py.truthy (phone f))
            || (String.length (Py.filter_chars Py.isdigit (phone f)) <? 6)%nat); [discriminate|].
  destruct (negb (Py.truthy (email f)) || negb (Py.contains "@" (email f))
            || negb (Py.contains "." (Py.last_item (Py.split "@" (email f)))));
    [discriminate|].
  destruct (negb (Py.truthy (zipcode f)) || (String.length (zipcode f) <? 3)%nat);
    [discriminate|].
  destruct (negb (Py.truthy (bank f)) || (String.length (bank f) <? 2)%nat); [discriminate|].
  rewrite Hx. reflexivity.
Qed.

Lemma amount_is_not_range_checked_witness :
  basic_validation (Fields "Ann" "555-12-34" "ann@example.org" "1234" "First Bank" "-nan" "0")
  = inr S754_nan.
Proof.
  apply (amount_is_not_range_checked
           (read_form (Example.entry "Ann" "12.5" "0")) Example.twelve_and_half "-nan" S754_nan).
  - vm_compute. reflexivity.
  - vm_compute. reflexivity.
Defined.

Lemma no_slash_no_head p : Py.contains "/" p = false -> Py.upto_last_slash p = "".
Proof.
  induction p as [|c p IH]; [reflexivity|]. cbn [Py.contains Py.upto_last_slash].
  intros H. apply orb_false_iff in H as [Hc Hp]. rewrite (IH Hp). cbn [Py.truthy].
  rewrite Ascii.eqb_sym, Hc. reflexivity.
Qed.

(** X4. A path without a directory part needs no directory: when [path]
    contains no "/", [ensure_dir_for_file] returns at once, makes no
    library call, and leaves the world as it is. *)
Theorem bare_filename_needs_no_directory path w :
  Py.contains "/" path = false ->
  ensure_dir_for_file path w = (Ok tt, w).
Proof.
  intros H. unfold ensure_dir_for_file, Py.dirname.
  rewrite (no_slash_no_head path H). reflexivity.
Qed.

Lemma bare_filename_needs_no_directory_witness :
  ensure_dir_for_file "submissions.xlsx" (World ∅ [] [Raises Failing.disk_error] [])
  = (Ok tt, World ∅ [] [Raises Failing.disk_error] []).
Proof.
  apply (bare_filename_needs_no_directory "submissions.xlsx"). reflexivity.
Defined.
